(** * The Huum sauna client (custom_components/huum)

    A shallow embedding of [huum.py] and [settings.py]: the [Huum] client
    class, its constructor and its five coroutines, run in a small
    state-and-exception monad over the client object, the remote service and
    a ghost log of the HTTP exchanges performed. *)

From Stdlib Require Import ZArith Ascii String List Bool Lia QArith DecimalString.
Import ListNotations.
Local Open Scope Z_scope.

(** ** Python values shared by the modules *)

(** The exceptions that the client's code paths can raise.
    [ValueError] and [SafetyException] are raised by [huum.py] itself;
    [AttributeError] is Python's answer to reading an instance attribute
    that was never assigned; [ClientConnectionError] and
    [ClientResponseError] are aiohttp's (the latter is what
    [raise_for_status=True] raises, carrying the HTTP status code);
    [ResponseBodyError] stands for whatever [response.json()] or
    the [HuumStatusResponse] constructor raise on a body they reject. *)
Inductive exn : Type :=
| ValueError (msg : string)
| SafetyException (msg : string)
| AttributeError (attr : string)
| ClientConnectionError
| ClientResponseError (code : Z)
| ResponseBodyError.

(** The class of an exception, which is what an [except] clause sees. *)
Inductive exn_class : Type :=
| cls_ValueError
| cls_SafetyException
| cls_AttributeError
| cls_ClientConnectionError
| cls_ClientResponseError
| cls_ResponseBodyError.

Definition class_of (e : exn) : exn_class :=
  match e with
  | ValueError _ => cls_ValueError
  | SafetyException _ => cls_SafetyException
  | AttributeError _ => cls_AttributeError
  | ClientConnectionError => cls_ClientConnectionError
  | ClientResponseError _ => cls_ClientResponseError
  | ResponseBodyError => cls_ResponseBodyError
  end.

(** The outcome of a call: a value, or a raised exception. *)
Inductive Result (A : Type) : Type :=
| Return (a : A)
| Raise (e : exn).
Arguments Return {A} a.
Arguments Raise {A} e.

(** [str(n)] for a Python int. *)
Definition str (n : Z) : string := NilZero.string_of_int (Z.to_int n).

(** [x in range(lo, hi)] for ints. *)
Definition in_range (x lo hi : Z) : bool := (lo <=? x) && (x <? hi).

(** [urljoin(base, name)] where [base] ends in a slash and [name] is a
    single relative segment, the only way [huum.py] calls it. *)
Definition urljoin (base name : string) : string := (base ++ name)%string.

(** ** settings.py *)

Module settings.

Record Settings : Type := {
  huum_username : option string;
  huum_password : option string
}.

End settings.

(** ** schemas.py *)

Module schemas.

(** Modelled from the spec: the [HuumStatusResponse] schema of the absent
    [schemas.py], with the fields the spec's StatusResponse lists.  [status]
    is the integer code that the client compares with [SaunaStatus]
    members. *)
Record HuumStatusResponse : Type := {
  status : Z;
  door_closed : bool;
  temperature : option Q;
  target_temperature : option Z;
  config_code : option Z;
  steamer_code : option Z
}.

End schemas.

(** ** aiohttp, as far as the client uses it *)

Record ClientSession : Type := { session_id : nat }.

Record BasicAuth : Type := { login : string; password : string }.

(** [":" in login]. *)
Fixpoint has_colon (s : string) : bool :=
  match s with
  | EmptyString => false
  | String c s' => Ascii.eqb c ":"%char || has_colon s'
  end.

Definition double_quote : string :=
  String (Ascii.ascii_of_nat 34) EmptyString.

(** [aiohttp.BasicAuth(login, password)] on two strings: the named tuple,
    refused with [ValueError] when the login contains a colon.  (Its checks
    against [None] cannot fire on strings.) *)
Definition BasicAuth_new (login password : string) : Result BasicAuth :=
  if has_colon login
  then Raise (ValueError
         ("A " ++ double_quote ++ ":" ++ double_quote
            ++ " is not allowed in login (RFC 1945#section-11.1)")%string)
  else Return {| login := login; password := password |}.

Inductive Method : Type := GET | POST.

(** One call of [session.get] or [session.post]. *)
Record Request : Type := {
  req_session : ClientSession;
  req_method : Method;
  req_url : string;
  req_json : option (list (string * Z));
  req_auth : BasicAuth
}.

(** What comes back: no connection, or an HTTP status code and a body. *)
Inductive Outcome (Body : Type) : Type :=
| ConnectionFailed
| Replied (code : Z) (body : Body).
Arguments ConnectionFailed {Body}.
Arguments Replied {Body} code body.

(** A remote service that answers from a fixed script, one outcome per
    request; an exhausted script no longer connects. *)
Definition scripted_serve {Body : Type} (w : list (Outcome Body)) (_ : Request)
  : list (Outcome Body) * Outcome Body :=
  match w with
  | [] => ([], ConnectionFailed)
  | o :: w' => (w', o)
  end.

(** ** huum.py *)

Module huum.
Import settings schemas.

Definition API_BASE : string := "https://api.huum.eu/action/home/".

Inductive SaunaStatus : Type :=
| OFFLINE
| ONLINE_HEATING
| ONLINE_NOT_HEATING
| LOCKED
| EMERGENCY_STOP.

(** The [IntEnum] values. *)
Definition SaunaStatus_value (s : SaunaStatus) : Z :=
  match s with
  | OFFLINE => 230
  | ONLINE_HEATING => 231
  | ONLINE_NOT_HEATING => 232
  | LOCKED => 233
  | EMERGENCY_STOP => 400
  end.

(** A [Dict[int, str]] literal, in the order it is written, and [d.get(k)]. *)
Definition dict_get (d : list (Z * string)) (k : Z) : option string :=
  match find (fun kv => fst kv =? k) d with
  | Some kv => Some (snd kv)
  | None => None
  end.

Definition STATUS_CODE_TEXTS : list (Z * string) :=
  [ (SaunaStatus_value OFFLINE, "offline"%string);
    (SaunaStatus_value ONLINE_HEATING, "online and heating"%string);
    (SaunaStatus_value ONLINE_NOT_HEATING, "online but not heating"%string);
    (SaunaStatus_value LOCKED,
     "being used by another user and is locked"%string);
    (SaunaStatus_value EMERGENCY_STOP, "emergency stop"%string) ].

Definition CONFIG_CODE_TEXTS : list (Z * string) :=
  [ (1, "Configured to user light system"%string);
    (2, "Configured to use steamer system"%string);
    (3, "Configured to use both light and steamer systems"%string) ].

Definition STEAMER_CODE_TEXTS : list (Z * string) :=
  [ (1, "No water in steamer, steamer system not allowed to start"%string) ].

(** The instance attributes of a [Huum] object.  An attribute that has not
    been assigned is [None]; the class body only annotates [session], it
    gives it no value. *)
Record Huum : Type := {
  session : option ClientSession;
  auth : option BasicAuth
}.

Definition min_temp : Z := 40.
Definition max_temp : Z := 110.

(** An actual argument of a call: left out, or passed. *)
Inductive arg (A : Type) : Type :=
| omitted
| passed (a : A).
Arguments omitted {A}.
Arguments passed {A} a.

Definition arg_or {A : Type} (default : A) (x : arg A) : A :=
  match x with
  | omitted => default
  | passed a => a
  end.

(** The value of an [Optional[str]] when it is truthy: neither [None] nor
    the empty string. *)
Definition truthy (o : option string) : option string :=
  match o with
  | Some s => if (s =? "")%string then None else Some s
  | None => None
  end.

(** The three requests of the remote API, as the coroutines build them. *)
Definition status_request (s : ClientSession) (a : BasicAuth) : Request :=
  {| req_session := s; req_method := GET;
     req_url := urljoin API_BASE "status";
     req_json := None; req_auth := a |}.

Definition start_request (s : ClientSession) (a : BasicAuth) (t : Z) : Request :=
  {| req_session := s; req_method := POST;
     req_url := urljoin API_BASE "start";
     req_json := Some [("targetTemperature"%string, t)]; req_auth := a |}.

Definition stop_request (s : ClientSession) (a : BasicAuth) : Request :=
  {| req_session := s; req_method := POST;
     req_url := urljoin API_BASE "stop";
     req_json := None; req_auth := a |}.

(** The public coroutines that return a [HuumStatusResponse]. *)
Inductive Operation : Type :=
| op_status
| op_turn_on (temperature : Z) (safety_override : bool)
| op_turn_off
| op_set_temperature (temperature : Z) (safety_override : bool)
| op_status_from_status_or_stop.

(** The client object, the remote service, the exchanges performed so far
    (oldest first; ghost state, no code reads it) and the identity of the
    next [ClientSession] object to be created. *)
Record State (Body W : Type) : Type := {
  self : Huum;
  net : W;
  log : list (Request * Outcome Body);
  next_session : nat
}.
Arguments Build_State {Body W} self net log next_session.
Arguments self {Body W} s.
Arguments net {Body W} s.
Arguments log {Body W} s.
Arguments next_session {Body W} s.

(** Sample values for concrete runs: a session, a credential pair, a
    configured client and one without a session, and three responses. *)
Definition a_session : ClientSession := {| session_id := 0 |}.

Definition some_auth : BasicAuth := {| login := "foo"; password := "bar" |}.

Definition a_client : Huum :=
  {| session := Some a_session; auth := Some some_auth |}.

Definition a_client_without_session : Huum :=
  {| session := None; auth := Some some_auth |}.

Definition response_idle : HuumStatusResponse :=
  {| status := 232; door_closed := true; temperature := Some (21 # 1)%Q;
     target_temperature := None; config_code := None; steamer_code := None |}.

Definition response_stopped : HuumStatusResponse :=
  {| status := 232; door_closed := true; temperature := Some (21 # 1)%Q;
     target_temperature := Some 80; config_code := None;
     steamer_code := None |}.

Definition response_heating : HuumStatusResponse :=
  {| status := 231; door_closed := true; temperature := Some (55 # 1)%Q;
     target_temperature := Some 80; config_code := None;
     steamer_code := None |}.

Definition response_door_open : HuumStatusResponse :=
  {| status := 232; door_closed := false; temperature := Some (21 # 1)%Q;
     target_temperature := None; config_code := None; steamer_code := None |}.

Definition response_emergency : HuumStatusResponse :=
  {| status := 400; door_closed := true; temperature := None;
     target_temperature := None; config_code := None; steamer_code := None |}.

(** A state for concrete runs: the remote service is a script of outcomes
    whose bodies are responses already decoded, nothing is logged yet. *)
Definition scripted_state (client : Huum)
    (script : list (Outcome HuumStatusResponse))
  : State HuumStatusResponse (list (Outcome HuumStatusResponse)) :=
  {| self := client; net := script; log := []; next_session := 1 |}.

Section Client.

(** The response bodies, the remote service with its own state, and the
    decoding of a body ([await response.json()] followed by
    the [HuumStatusResponse] constructor of the absent [schemas.py]). *)
Variable Body : Type.
Variable W : Type.
Variable serve : W -> Request -> W * Outcome Body.
Variable decode : Body -> option HuumStatusResponse.

Abbreviation St := (State Body W).

(** Exceptions keep the state changes made before they were raised. *)
Definition M (A : Type) : Type := St -> Result A * St.

Definition ret {A : Type} (a : A) : M A := fun st => (Return a, st).

Definition raise {A : Type} (e : exn) : M A := fun st => (Raise e, st).

Definition bind {A B : Type} (c : M A) (k : A -> M B) : M B :=
  fun st =>
    match c st with
    | (Return a, st') => k a st'
    | (Raise e, st') => (Raise e, st')
    end.

Notation "x <- c ;; k" := (bind c (fun x => k))
  (at level 100, c at next level, right associativity).
Notation "c ;;; k" := (bind c (fun _ => k))
  (at level 100, right associativity).

(** [self.session] and [self.auth], read. *)
Definition get_session : M ClientSession :=
  fun st =>
    match session (self st) with
    | Some s => (Return s, st)
    | None => (Raise (AttributeError "session"), st)
    end.

Definition get_auth : M BasicAuth :=
  fun st =>
    match auth (self st) with
    | Some a => (Return a, st)
    | None => (Raise (AttributeError "auth"), st)
    end.

(** [self.session = s] and [self.auth = a]. *)
Definition set_session (s : ClientSession) : M unit :=
  fun st =>
    (Return tt,
     {| self := {| session := Some s; auth := auth (self st) |};
        net := net st; log := log st; next_session := next_session st |}).

Definition set_auth (a : BasicAuth) : M unit :=
  fun st =>
    (Return tt,
     {| self := {| session := session (self st); auth := Some a |};
        net := net st; log := log st; next_session := next_session st |}).

(** A new, empty instance, as [Huum.__new__] hands it to [__init__]. *)
Definition new_object : M unit :=
  fun st =>
    (Return tt,
     {| self := {| session := None; auth := None |};
        net := net st; log := log st; next_session := next_session st |}).

(** [aiohttp.ClientSession()]. *)
Definition new_ClientSession : M ClientSession :=
  fun st =>
    (Return {| session_id := next_session st |},
     {| self := self st; net := net st; log := log st;
        next_session := S (next_session st) |}).

(** [await session.request(...)]: the request reaches the remote service
    and is logged with its outcome; with [raise_for_status] a status code
    of 400 or more raises [ClientResponseError]. *)
Definition request (rq : Request) (raise_for_status : bool) : M Body :=
  fun st =>
    let (w', out) := serve (net st) rq in
    let st' := {| self := self st; net := w';
                  log := log st ++ [(rq, out)];
                  next_session := next_session st |} in
    match out with
    | ConnectionFailed => (Raise ClientConnectionError, st')
    | Replied code body =>
        if raise_for_status && (400 <=? code)
        then (Raise (ClientResponseError code), st')
        else (Return body, st')
    end.

Definition session_get (s : ClientSession) (url : string) (a : BasicAuth)
    (raise_for_status : bool) : M Body :=
  request {| req_session := s; req_method := GET; req_url := url;
             req_json := None; req_auth := a |} raise_for_status.

Definition session_post (s : ClientSession) (url : string)
    (json : option (list (string * Z))) (a : BasicAuth)
    (raise_for_status : bool) : M Body :=
  request {| req_session := s; req_method := POST; req_url := url;
             req_json := json; req_auth := a |} raise_for_status.

(** [await response.json()], then the resulting dict handed to the
    [HuumStatusResponse] constructor. *)
Definition parse_response (response : Body) : M HuumStatusResponse :=
  match decode response with
  | Some r => ret r
  | None => raise ResponseBodyError
  end.

(** [Huum.__init__]. *)
Definition __init__ (username password : option string)
    (session : option ClientSession) : M unit :=
  (match session with
   | Some s => set_session s
   | None => ret tt
   end) ;;;
  match truthy username, truthy password with
  | Some u, Some p =>
      match BasicAuth_new u p with
      | Return a => set_auth a
      | Raise e => raise e
      end
  | _, _ =>
      raise (ValueError
        "No username or password provided either by the environment nor explicitly")
  end.

(** [Huum(...)] at a call site: omitted credentials default to the
    fields of the module-level [settings] object, an omitted session to
    [None]. *)
Definition Huum_new (settings : Settings)
    (username password : arg (option string))
    (session : arg (option ClientSession)) : M unit :=
  new_object ;;;
  __init__ (arg_or (huum_username settings) username)
           (arg_or (huum_password settings) password)
           (arg_or None session).

(** [Huum.status]. *)
Definition status : M HuumStatusResponse :=
  let url := urljoin API_BASE "status" in
  s <- get_session ;;
  a <- get_auth ;;
  response <- session_get s url a true ;;
  parse_response response.

(** [Huum._check_door]. *)
Definition _check_door : M unit :=
  st <- status ;;
  if negb (door_closed st)
  then raise (SafetyException "Can not start sauna when door is open")
  else ret tt.

(** [Huum.turn_on]. *)
Definition turn_on (temperature : Z) (safety_override : bool)
    : M HuumStatusResponse :=
  if negb (in_range temperature min_temp max_temp)
  then raise (ValueError
         ("Temperature '" ++ str temperature ++ "' must be between "
            ++ str min_temp ++ "-" ++ str max_temp)%string)
  else
    (if negb safety_override then _check_door else ret tt) ;;;
    let url := urljoin API_BASE "start" in
    let data := [("targetTemperature"%string, temperature)] in
    s <- get_session ;;
    a <- get_auth ;;
    response <- session_post s url (Some data) a true ;;
    parse_response response.

(** [Huum.turn_off]. *)
Definition turn_off : M HuumStatusResponse :=
  let url := urljoin API_BASE "stop" in
  s <- get_session ;;
  a <- get_auth ;;
  response <- session_post s url None a true ;;
  parse_response response.

(** [Huum.set_temperature]. *)
Definition set_temperature (temperature : Z) (safety_override : bool)
    : M HuumStatusResponse :=
  r <- turn_on temperature safety_override ;;
  ret r.

(** [Huum.status_from_status_or_stop]. *)
Definition status_from_status_or_stop : M HuumStatusResponse :=
  status_response <- status ;;
  if schemas.status status_response =? SaunaStatus_value ONLINE_NOT_HEATING
  then turn_off
  else ret status_response.

(** [Huum.open_session]. *)
Definition open_session : M unit :=
  s <- new_ClientSession ;;
  set_session s.

Definition call (op : Operation) : M HuumStatusResponse :=
  match op with
  | op_status => status
  | op_turn_on t o => turn_on t o
  | op_turn_off => turn_off
  | op_set_temperature t o => set_temperature t o
  | op_status_from_status_or_stop => status_from_status_or_stop
  end.

(** *** Vocabulary of the statements *)

(** What the remote service answers to [rq] in state [st], and the state
    once that exchange has taken place. *)
Definition answer (st : St) (rq : Request) : Outcome Body :=
  snd (serve (net st) rq).

Definition after (st : St) (rq : Request) : St :=
  {| self := self st;
     net := fst (serve (net st) rq);
     log := log st ++ [(rq, answer st rq)];
     next_session := next_session st |}.

(** What a coroutine makes of an outcome, with [raise_for_status=True]. *)
Definition outcome_result (out : Outcome Body) : Result HuumStatusResponse :=
  match out with
  | ConnectionFailed => Raise ClientConnectionError
  | Replied code body =>
      if 400 <=? code then Raise (ClientResponseError code)
      else match decode body with
           | Some r => Return r
           | None => Raise ResponseBodyError
           end
  end.

(** The requests sent so far. *)
Definition sent (st : St) : list Request := map fst (log st).

(** A computation that leaves the client object as it found it, only adds
    to the log, and whose result and effect on the remote service are
    fixed by the client object and the remote service, not by the log. *)
Definition stateless {A : Type} (c : M A) : Prop :=
  forall st,
    self (snd (c st)) = self st /\
    (exists l, log (snd (c st)) = log st ++ l) /\
    (forall st', self st' = self st -> net st' = net st ->
       fst (c st') = fst (c st) /\ net (snd (c st')) = net (snd (c st))).

(** A computation whose returned response is the decoded body of the last
    exchange it performed itself. *)
Definition fetched (c : M HuumStatusResponse) : Prop :=
  forall st r,
    fst (c st) = Return r ->
    exists earlier rq code body,
      log (snd (c st)) = log st ++ earlier ++ [(rq, Replied code body)] /\
      decode body = Some r.

(** The shape shared by [status], [turn_off] and the end of [turn_on]:
    read the two attributes, send one request, decode the answer. *)
Definition exchange (f : ClientSession -> BasicAuth -> Request)
    : M HuumStatusResponse :=
  s <- get_session ;;
  a <- get_auth ;;
  response <- request (f s a) true ;;
  parse_response response.

(** The requests that an operation of a client with session [s] and
    credentials [a] sends, given what its status check (when it makes one)
    comes back with. *)
Definition requests_of (op : Operation) (s : ClientSession) (a : BasicAuth)
    (check : Result HuumStatusResponse) : list Request :=
  match op with
  | op_status => [status_request s a]
  | op_turn_off => [stop_request s a]
  | op_turn_on t o | op_set_temperature t o =>
      if in_range t min_temp max_temp then
        if o then [start_request s a t]
        else match check with
             | Return r =>
                 if door_closed r
                 then [status_request s a; start_request s a t]
                 else [status_request s a]
             | Raise _ => [status_request s a]
             end
      else []
  | op_status_from_status_or_stop =>
      match check with
      | Return r =>
          if schemas.status r =? SaunaStatus_value ONLINE_NOT_HEATING
          then [status_request s a; stop_request s a]
          else [status_request s a]
      | Raise _ => [status_request s a]
      end
  end.

(** *** How the coroutines run *)

Ltac run_attrs Hs Ha :=
  unfold bind at 1, get_session; rewrite Hs;
  unfold bind at 1, get_auth; rewrite Ha.

(** A request followed by the decoding of its body. *)
Lemma exchange_run rq st :
  (response <- request rq true ;; parse_response response) st
  = (outcome_result (answer st rq), after st rq).
Proof.
  unfold bind, request, after, answer, outcome_result.
  destruct (serve (net st) rq) as [w' out]; simpl.
  destruct out as [|code body]; [reflexivity|].
  destruct (400 <=? code); [reflexivity|].
  unfold parse_response. destruct (decode body); reflexivity.
Qed.

Lemma status_run st s a :
  session (self st) = Some s -> auth (self st) = Some a ->
  status st = (outcome_result (answer st (status_request s a)),
               after st (status_request s a)).
Proof.
  intros Hs Ha. unfold status. run_attrs Hs Ha.
  apply exchange_run.
Qed.

Lemma turn_off_run st s a :
  session (self st) = Some s -> auth (self st) = Some a ->
  turn_off st = (outcome_result (answer st (stop_request s a)),
                 after st (stop_request s a)).
Proof.
  intros Hs Ha. unfold turn_off. run_attrs Hs Ha.
  apply exchange_run.
Qed.

Lemma status_no_session st :
  session (self st) = None ->
  status st = (Raise (AttributeError "session"), st).
Proof.
  intros Hs. unfold status, bind, get_session. rewrite Hs. reflexivity.
Qed.

Lemma turn_off_no_session st :
  session (self st) = None ->
  turn_off st = (Raise (AttributeError "session"), st).
Proof.
  intros Hs. unfold turn_off, bind, get_session. rewrite Hs. reflexivity.
Qed.

Lemma status_no_auth st s :
  session (self st) = Some s -> auth (self st) = None ->
  status st = (Raise (AttributeError "auth"), st).
Proof.
  intros Hs Ha. unfold status, bind, get_session, get_auth.
  rewrite Hs, Ha. reflexivity.
Qed.

Lemma outcome_result_Return out r :
  outcome_result out = Return r ->
  exists code body,
    out = Replied code body /\ code < 400 /\ decode body = Some r.
Proof.
  destruct out as [|code body]; simpl; [discriminate|].
  destruct (Z.leb_spec 400 code); [discriminate|].
  destruct (decode body) as [r'|] eqn:Hd; [|discriminate].
  intros [= ->]. exists code, body. repeat split; assumption.
Qed.

(** A status call that returns was made with a session and credentials,
    and is one exchange on the status endpoint. *)
Lemma status_Return_inv st r st1 :
  status st = (Return r, st1) ->
  exists s a code body,
    session (self st) = Some s /\ auth (self st) = Some a /\
    answer st (status_request s a) = Replied code body /\
    code < 400 /\ decode body = Some r /\
    st1 = after st (status_request s a).
Proof.
  intros H.
  destruct (session (self st)) as [s|] eqn:Hs;
    [|rewrite status_no_session in H by assumption; discriminate].
  destruct (auth (self st)) as [a|] eqn:Ha;
    [|rewrite (status_no_auth _ s) in H by assumption; discriminate].
  rewrite (status_run _ s a) in H by assumption.
  injection H as Hr Hst.
  apply outcome_result_Return in Hr as (code & body & Hout & Hc & Hd).
  exists s, a, code, body. repeat split; auto.
Qed.

Lemma in_range_true t :
  in_range t min_temp max_temp = true <-> 40 <= t < 110.
Proof.
  unfold in_range, min_temp, max_temp.
  rewrite andb_true_iff, Z.leb_le, Z.ltb_lt. tauto.
Qed.

Lemma in_range_false t :
  in_range t min_temp max_temp = false <-> t < 40 \/ 110 <= t.
Proof.
  unfold in_range, min_temp, max_temp.
  rewrite andb_false_iff, Z.leb_gt, Z.ltb_ge. tauto.
Qed.

(** The start exchange that ends a [turn_on] whose checks have passed. *)
Lemma start_run st s a t :
  session (self st) = Some s -> auth (self st) = Some a ->
  (s0 <- get_session ;;
   a0 <- get_auth ;;
   response <- session_post s0 (urljoin API_BASE "start")
                 (Some [("targetTemperature"%string, t)]) a0 true ;;
   parse_response response) st
  = (outcome_result (answer st (start_request s a t)),
     after st (start_request s a t)).
Proof.
  intros Hs Ha. run_attrs Hs Ha. apply exchange_run.
Qed.

Lemma turn_on_in_range st t o :
  40 <= t < 110 ->
  turn_on t o st
  = match (if o then (Return tt, st) else _check_door st) with
    | (Return _, st') =>
        (s0 <- get_session ;;
         a0 <- get_auth ;;
         response <- session_post s0 (urljoin API_BASE "start")
                       (Some [("targetTemperature"%string, t)]) a0 true ;;
         parse_response response) st'
    | (Raise e, st') => (Raise e, st')
    end.
Proof.
  intros Ht. unfold turn_on.
  rewrite (proj2 (in_range_true t) Ht).
  destruct o; reflexivity.
Qed.

Lemma turn_on_override_run st s a t :
  40 <= t < 110 ->
  session (self st) = Some s -> auth (self st) = Some a ->
  turn_on t true st
  = (outcome_result (answer st (start_request s a t)),
     after st (start_request s a t)).
Proof.
  intros Ht Hs Ha. rewrite turn_on_in_range by assumption.
  now apply start_run.
Qed.

Lemma check_door_run st r st1 :
  status st = (Return r, st1) ->
  _check_door st
  = (if door_closed r then Return tt
     else Raise (SafetyException "Can not start sauna when door is open"),
     st1).
Proof.
  intros H. unfold _check_door, bind. rewrite H.
  destruct (door_closed r); reflexivity.
Qed.

Lemma turn_on_checked_run st t r st1 :
  40 <= t < 110 ->
  status st = (Return r, st1) ->
  exists s a,
    session (self st) = Some s /\ auth (self st) = Some a /\
    st1 = after st (status_request s a) /\
    turn_on t false st
    = if door_closed r
      then (outcome_result (answer st1 (start_request s a t)),
            after st1 (start_request s a t))
      else (Raise (SafetyException "Can not start sauna when door is open"),
            st1).
Proof.
  intros Ht H.
  destruct (status_Return_inv _ _ _ H)
    as (s & a & code & body & Hs & Ha & _ & _ & _ & E).
  exists s, a. repeat split; try assumption.
  rewrite turn_on_in_range, (check_door_run _ _ _ H) by assumption.
  destruct (door_closed r); [|reflexivity].
  apply start_run; subst st1; assumption.
Qed.

Lemma turn_on_check_raises st t e st1 :
  40 <= t < 110 ->
  status st = (Raise e, st1) ->
  turn_on t false st = (Raise e, st1).
Proof.
  intros Ht H. rewrite turn_on_in_range by assumption.
  unfold _check_door, bind. rewrite H. reflexivity.
Qed.

(** Neither a coroutine's exchange nor the door check raises [ValueError]. *)
Lemma outcome_result_not_ValueError out msg :
  outcome_result out <> Raise (ValueError msg).
Proof.
  destruct out as [|code body]; simpl; [discriminate|].
  destruct (400 <=? code); [discriminate|].
  destruct (decode body); discriminate.
Qed.

Lemma status_not_ValueError st msg :
  fst (status st) <> Raise (ValueError msg).
Proof.
  destruct (session (self st)) as [s|] eqn:Hs;
    [|rewrite status_no_session by assumption; discriminate].
  destruct (auth (self st)) as [a|] eqn:Ha;
    [|rewrite (status_no_auth _ s) by assumption; discriminate].
  rewrite (status_run _ s a) by assumption.
  apply outcome_result_not_ValueError.
Qed.

Lemma set_temperature_run t o st :
  set_temperature t o st = turn_on t o st.
Proof.
  unfold set_temperature, bind, ret.
  destruct (turn_on t o st) as [[r|e] st']; reflexivity.
Qed.

Lemma truthy_Some o s : o = Some s -> s <> ""%string -> truthy o = Some s.
Proof.
  intros -> N. simpl. destruct (String.eqb_spec s ""); congruence.
Qed.

Lemma Huum_new_run cfg username password session st u p :
  arg_or (huum_username cfg) username = Some u ->
  arg_or (huum_password cfg) password = Some p ->
  u <> ""%string -> p <> ""%string ->
  has_colon u = false ->
  Huum_new cfg username password session st
  = (Return tt,
     {| self := {| huum.session := arg_or None session;
                   auth := Some {| login := u; password := p |} |};
        net := net st; log := log st;
        next_session := next_session st |}).
Proof.
  intros Hu Hp Nu Np Hc.
  unfold Huum_new, bind, new_object, __init__, bind.
  rewrite (truthy_Some _ _ Hu Nu), (truthy_Some _ _ Hp Np).
  unfold BasicAuth_new. rewrite Hc.
  destruct (arg_or None session); reflexivity.
Qed.

(** A login with a colon stops the construction at [BasicAuth]: the session
    is already assigned, the credentials never are. *)
Lemma Huum_new_colon cfg username password session st u p :
  arg_or (huum_username cfg) username = Some u ->
  arg_or (huum_password cfg) password = Some p ->
  u <> ""%string -> p <> ""%string ->
  has_colon u = true ->
  Huum_new cfg username password session st
  = (Raise (ValueError
       ("A " ++ double_quote ++ ":" ++ double_quote
          ++ " is not allowed in login (RFC 1945#section-11.1)")%string),
     {| self := {| huum.session := arg_or None session; auth := None |};
        net := net st; log := log st;
        next_session := next_session st |}).
Proof.
  intros Hu Hp Nu Np Hc.
  unfold Huum_new, bind, new_object, __init__, bind.
  rewrite (truthy_Some _ _ Hu Nu), (truthy_Some _ _ Hp Np).
  unfold BasicAuth_new. rewrite Hc.
  destruct (arg_or None session); reflexivity.
Qed.

(** *** The reconciled status *)

(** C1: [status_from_status_or_stop] first calls [status]; when that
    returns a response whose status is [ONLINE_NOT_HEATING] it drops the
    response, makes one call of [turn_off] (one exchange, on the stop
    endpoint) and returns what that call returns; for every other status
    value, the four other members of [SaunaStatus] included, it makes no
    further call and returns the response of [status] unchanged; an exception
    of [status] is passed on. *)
Theorem C1_reconciled_status (st : St) :
  (forall r st1, status st = (Return r, st1) ->
     (schemas.status r = SaunaStatus_value ONLINE_NOT_HEATING ->
        status_from_status_or_stop st = turn_off st1 /\
        exists s a,
          snd (turn_off st1) = after st1 (stop_request s a) /\
          sent (snd (status_from_status_or_stop st))
          = sent st ++ [status_request s a; stop_request s a]) /\
     (schemas.status r <> SaunaStatus_value ONLINE_NOT_HEATING ->
        status_from_status_or_stop st = (Return r, st1) /\
        exists s a, sent st1 = sent st ++ [status_request s a]) /\
     (forall v, v <> ONLINE_NOT_HEATING ->
        schemas.status r = SaunaStatus_value v ->
        status_from_status_or_stop st = (Return r, st1))) /\
  (forall e st1, status st = (Raise e, st1) ->
     status_from_status_or_stop st = (Raise e, st1)).
Proof.
  split.
  - intros r st1 H.
    assert (Hneq : schemas.status r <> SaunaStatus_value ONLINE_NOT_HEATING ->
                   status_from_status_or_stop st = (Return r, st1)).
    { intros Hv. unfold status_from_status_or_stop, bind. rewrite H.
      destruct (Z.eqb_spec (schemas.status r)
                  (SaunaStatus_value ONLINE_NOT_HEATING)); [contradiction|].
      reflexivity. }
    destruct (status_Return_inv _ _ _ H)
      as (s & a & code & body & Hs & Ha & _ & _ & _ & ->).
    split; [|split].
    + intros Hv.
      assert (E : status_from_status_or_stop st
                  = turn_off (after st (status_request s a))).
      { unfold status_from_status_or_stop, bind. rewrite H, Hv.
        rewrite Z.eqb_refl. reflexivity. }
      split; [exact E|]. exists s, a.
      rewrite E, (turn_off_run _ s a) by assumption.
      split; [reflexivity|].
      unfold sent. simpl. rewrite !map_app, <- app_assoc. reflexivity.
    + intros Hv. split; [auto|]. exists s, a.
      unfold sent. simpl. rewrite map_app. reflexivity.
    + intros v Hv E. apply Hneq. rewrite E.
      destruct v; simpl; try discriminate. contradiction.
  - intros e st1 H. unfold status_from_status_or_stop, bind.
    rewrite H. reflexivity.
Qed.

(** *** Turning on *)

(** C3: a temperature below 40 or at least 110 (110 itself included) makes
    [turn_on] raise [ValueError] with the state untouched, so without any
    request, whatever [safety_override] is; a temperature from 40 to 109
    passes the check: [turn_on] never raises [ValueError] then, and with a
    session and credentials its first step is a request (the status check,
    or with [safety_override] the start request). *)
Theorem C3_temperature_validation (t : Z) (o : bool) (st : St) :
  (t < 40 \/ 110 <= t ->
     turn_on t o st
     = (Raise (ValueError
          ("Temperature '" ++ str t ++ "' must be between 40-110")%string),
        st)) /\
  (40 <= t < 110 ->
     (forall msg, fst (turn_on t o st) <> Raise (ValueError msg)) /\
     (forall s a,
        session (self st) = Some s -> auth (self st) = Some a ->
        exists rest,
          sent (snd (turn_on t o st))
          = sent st
              ++ (if o then start_request s a t else status_request s a)
              :: rest)).
Proof.
  split.
  - intros Ht. unfold turn_on.
    rewrite (proj2 (in_range_false t) Ht). reflexivity.
  - intros Ht. split.
    + intros msg. destruct o.
      * rewrite turn_on_in_range by assumption.
        destruct (session (self st)) as [s|] eqn:Hs.
        2:{ unfold bind, get_session. rewrite Hs. discriminate. }
        destruct (auth (self st)) as [a|] eqn:Ha.
        2:{ unfold bind, get_session, get_auth. rewrite Hs, Ha.
            discriminate. }
        rewrite (start_run _ s a) by assumption.
        apply outcome_result_not_ValueError.
      * destruct (status st) as [[r|e] st1] eqn:H.
        -- destruct (turn_on_checked_run _ t _ _ Ht H)
             as (s & a & _ & _ & _ & ->).
           destruct (door_closed r); [|discriminate].
           apply outcome_result_not_ValueError.
        -- rewrite (turn_on_check_raises _ _ _ _ Ht H).
           pose proof (status_not_ValueError st msg) as N.
           rewrite H in N. exact N.
    + intros s a Hs Ha. destruct o.
      * rewrite (turn_on_override_run _ s a) by assumption.
        exists []. unfold sent. simpl. rewrite map_app. reflexivity.
      * destruct (status st) as [[r|e] st1] eqn:H.
        -- destruct (turn_on_checked_run _ t _ _ Ht H)
             as (s' & a' & Hs' & Ha' & -> & ->).
           assert (s' = s) as -> by congruence.
           assert (a' = a) as -> by congruence.
           destruct (door_closed r).
           ++ exists [start_request s a t]. unfold sent. simpl.
              rewrite !map_app, <- app_assoc. reflexivity.
           ++ exists []. unfold sent. simpl. rewrite map_app. reflexivity.
        -- rewrite (turn_on_check_raises _ _ _ _ Ht H).
           rewrite (status_run _ s a) in H by assumption.
           injection H as _ <-.
           exists []. unfold sent. simpl. rewrite map_app. reflexivity.
Qed.

(** C2: with an in-range temperature and no override, a status check that
    reports an open door makes [turn_on] raise [SafetyException]; the state is
    the one the status check left, so the status request is the only request
    sent and no start request follows. *)
Theorem C2_door_open_refused (t : Z) (st : St)
    (r : HuumStatusResponse) (st1 : St) :
  40 <= t < 110 ->
  status st = (Return r, st1) ->
  door_closed r = false ->
  turn_on t false st
  = (Raise (SafetyException "Can not start sauna when door is open"), st1) /\
  exists s a,
    sent (snd (turn_on t false st)) = sent st ++ [status_request s a].
Proof.
  intros Ht H Hd.
  destruct (turn_on_checked_run _ t _ _ Ht H) as (s & a & _ & _ & E1 & E).
  rewrite Hd in E. rewrite E. split; [reflexivity|].
  exists s, a. subst st1. unfold sent. simpl.
  rewrite map_app. reflexivity.
Qed.

(** C4: for a temperature from 40 to 109, when the status check reports a
    closed door, [turn_on] without override sends exactly the status request
    and then one start request whose JSON body is
    [targetTemperature = t]; with [safety_override] it sends the start
    request alone. *)
Theorem C4_turn_on_requests (t : Z) (st : St) :
  40 <= t < 110 ->
  (forall r st1,
      status st = (Return r, st1) -> door_closed r = true ->
      exists s a,
        sent (snd (turn_on t false st))
        = sent st ++ [status_request s a; start_request s a t] /\
        req_json (start_request s a t)
        = Some [("targetTemperature"%string, t)]) /\
  (forall s a,
      session (self st) = Some s -> auth (self st) = Some a ->
      sent (snd (turn_on t true st)) = sent st ++ [start_request s a t]).
Proof.
  intros Ht. split.
  - intros r st1 H Hd.
    destruct (turn_on_checked_run _ t _ _ Ht H) as (s & a & _ & _ & E1 & E).
    rewrite Hd in E. rewrite E. exists s, a. split; [|reflexivity].
    subst st1. unfold sent. simpl.
    rewrite !map_app, <- app_assoc. reflexivity.
  - intros s a Hs Ha.
    rewrite (turn_on_override_run _ s a) by assumption.
    unfold sent. simpl. rewrite map_app. reflexivity.
Qed.

(** C9: the door check looks at [door_closed] only.  Whatever the status
    field of the response is, a status check that reports a closed door lets
    [_check_door] return, and [turn_on] without override goes on to the start
    request. *)
Theorem C9_door_check_ignores_status (t : Z) (st : St)
    (r : HuumStatusResponse) (st1 : St) :
  40 <= t < 110 ->
  status st = (Return r, st1) ->
  door_closed r = true ->
  _check_door st = (Return tt, st1) /\
  exists s a,
    turn_on t false st
    = (outcome_result (answer st1 (start_request s a t)),
       after st1 (start_request s a t)) /\
    sent (snd (turn_on t false st)) = sent st1 ++ [start_request s a t].
Proof.
  intros Ht H Hd. split.
  - rewrite (check_door_run _ _ _ H), Hd. reflexivity.
  - destruct (turn_on_checked_run _ t _ _ Ht H) as (s & a & _ & _ & _ & E).
    rewrite Hd in E. exists s, a. rewrite E. split; [reflexivity|].
    unfold sent. simpl. rewrite map_app. reflexivity.
Qed.

(** *** Setting the temperature *)

(** C7: [set_temperature] forwards to [turn_on]: on every state, with every
    temperature and override flag, it returns the same response or raises the
    same exception, and leaves the same state, the same requests sent. *)
Theorem C7_set_temperature_forwards (t : Z) (o : bool) (st : St) :
  set_temperature t o st = turn_on t o st.
Proof.
  apply set_temperature_run.
Qed.

(** *** HTTP errors *)

(** C5, as the code has it: when the remote service answers a status call
    with an HTTP status of 400 or more, 401 and 403 among them, the call
    raises [ClientResponseError] carrying that code, one exception class for
    all those codes, and returns no response. *)
Theorem C5_status_http_error (st : St) (s : ClientSession) (a : BasicAuth)
    (code : Z) (body : Body) :
  session (self st) = Some s -> auth (self st) = Some a ->
  answer st (status_request s a) = Replied code body ->
  400 <= code ->
  status st
  = (Raise (ClientResponseError code), after st (status_request s a)) /\
  class_of (ClientResponseError code) = cls_ClientResponseError /\
  (forall r st1, status st <> (Return r, st1)).
Proof.
  intros Hs Ha Hout Hc.
  assert (E : status st = (Raise (ClientResponseError code),
                           after st (status_request s a))).
  { rewrite (status_run _ s a) by assumption. rewrite Hout. simpl.
    destruct (Z.leb_spec 400 code); [reflexivity|lia]. }
  split; [exact E|]. split; [reflexivity|].
  intros r st1. rewrite E. discriminate.
Qed.

(** *** Construction *)

(** C6, as the code has it: when the user name or the password that
    reaches the constructor (passed, or else taken from the settings) is
    [None] or empty, [Huum(...)] raises [ValueError] without touching the
    remote service.  When both are non-empty and the user name has no colon,
    it returns an object holding them as its credentials, and the session it
    was given; a user name with a colon is refused by [BasicAuth], again
    with [ValueError] and without touching the remote service. *)
Theorem C6_construction (cfg : Settings)
    (username password : arg (option string))
    (session : arg (option ClientSession)) (st : St) :
  let u := arg_or (huum_username cfg) username in
  let p := arg_or (huum_password cfg) password in
  (u = None \/ u = Some ""%string \/ p = None \/ p = Some ""%string ->
     fst (Huum_new cfg username password session st)
     = Raise (ValueError
         "No username or password provided either by the environment nor explicitly") /\
     net (snd (Huum_new cfg username password session st)) = net st /\
     log (snd (Huum_new cfg username password session st)) = log st) /\
  (forall u' p',
      u = Some u' -> p = Some p' -> u' <> ""%string -> p' <> ""%string ->
      (has_colon u' = false ->
       Huum_new cfg username password session st
       = (Return tt,
          {| self := {| huum.session := arg_or None session;
                        auth := Some {| login := u'; password := p' |} |};
             net := net st; log := log st;
             next_session := next_session st |})) /\
      (has_colon u' = true ->
       fst (Huum_new cfg username password session st)
       = Raise (ValueError
           ("A " ++ double_quote ++ ":" ++ double_quote
              ++ " is not allowed in login (RFC 1945#section-11.1)")%string) /\
       net (snd (Huum_new cfg username password session st)) = net st /\
       log (snd (Huum_new cfg username password session st)) = log st)).
Proof.
  intros u p. split.
  - intros H.
    assert (T : truthy u = None \/ truthy p = None).
    { destruct H as [E | [E | [E | E]]]; rewrite E; simpl; auto. }
    unfold Huum_new. fold u p.
    unfold bind, new_object, __init__, bind.
    destruct (arg_or None session); simpl;
      destruct T as [T|T]; rewrite T;
      try destruct (truthy u); repeat split; reflexivity.
  - intros u' p' Hu Hp Nu Np. split; intros Hc.
    + apply (Huum_new_run cfg username password session st); assumption.
    + rewrite (Huum_new_colon cfg username password session st u' p')
        by assumption.
      repeat split.
Qed.

(** *** No state kept between calls *)

Lemma stateless_ret {A : Type} (a : A) : stateless (ret a).
Proof.
  intros st. split; [reflexivity|].
  split; [exists []; simpl; now rewrite app_nil_r|].
  intros st' _ En. split; [reflexivity | exact En].
Qed.

Lemma stateless_raise {A : Type} (e : exn) : stateless (@raise A e).
Proof.
  intros st. split; [reflexivity|].
  split; [exists []; simpl; now rewrite app_nil_r|].
  intros st' _ En. split; [reflexivity | exact En].
Qed.

Lemma stateless_bind {A B : Type} (c : M A) (k : A -> M B) :
  stateless c -> (forall a, stateless (k a)) -> stateless (bind c k).
Proof.
  intros Hc Hk st. unfold bind.
  destruct (Hc st) as (Hself & [l Hlog] & Hdet).
  destruct (c st) as [[a|e] st1] eqn:E; simpl in *.
  - destruct (Hk a st1) as (Hself1 & [l1 Hlog1] & Hdet1).
    split; [congruence|]. split.
    + exists (l ++ l1). rewrite Hlog1, Hlog, app_assoc. reflexivity.
    + intros st' Es En. destruct (Hdet st' Es En) as [Er Enet].
      destruct (Hc st') as (Hself' & _ & _).
      destruct (c st') as [[a'|e'] st1'] eqn:E'; simpl in *;
        [|discriminate].
      injection Er as ->. apply Hdet1; congruence.
  - split; [assumption|]. split; [exists l; assumption|].
    intros st' Es En. destruct (Hdet st' Es En) as [Er Enet].
    destruct (c st') as [[a'|e'] st1'] eqn:E'; simpl in *;
      [discriminate|].
    injection Er as ->. split; [reflexivity | assumption].
Qed.

Lemma stateless_get_session : stateless get_session.
Proof.
  intros st. unfold get_session.
  split; [destruct (session (self st)); reflexivity|].
  split.
  - exists []. rewrite app_nil_r. destruct (session (self st)); reflexivity.
  - intros st' Es En. rewrite Es.
    destruct (session (self st)); simpl; auto.
Qed.

Lemma stateless_get_auth : stateless get_auth.
Proof.
  intros st. unfold get_auth.
  split; [destruct (auth (self st)); reflexivity|].
  split.
  - exists []. rewrite app_nil_r. destruct (auth (self st)); reflexivity.
  - intros st' Es En. rewrite Es.
    destruct (auth (self st)); simpl; auto.
Qed.

Lemma stateless_request rq b : stateless (request rq b).
Proof.
  intros st. unfold request.
  split; [|split].
  - destruct (serve (net st) rq) as [w' [|code body]]; simpl;
      [|destruct (b && (400 <=? code))]; reflexivity.
  - exists [(rq, snd (serve (net st) rq))].
    destruct (serve (net st) rq) as [w' [|code body]]; simpl;
      [|destruct (b && (400 <=? code))]; reflexivity.
  - intros st' Es En. rewrite En.
    destruct (serve (net st) rq) as [w' [|code body]]; simpl;
      [|destruct (b && (400 <=? code))]; auto.
Qed.

Lemma stateless_parse_response body : stateless (parse_response body).
Proof.
  unfold parse_response.
  destruct (decode body); [apply stateless_ret | apply stateless_raise].
Qed.

Lemma stateless_exchange f : stateless (exchange f).
Proof.
  unfold exchange.
  apply stateless_bind; [apply stateless_get_session | intros s].
  apply stateless_bind; [apply stateless_get_auth | intros a].
  apply stateless_bind; [apply stateless_request | intros body].
  apply stateless_parse_response.
Qed.

Lemma status_exchange : status = exchange status_request.
Proof. reflexivity. Qed.

Lemma turn_off_exchange : turn_off = exchange stop_request.
Proof. reflexivity. Qed.

Lemma stateless_check_door : stateless _check_door.
Proof.
  unfold _check_door. apply stateless_bind.
  - rewrite status_exchange. apply stateless_exchange.
  - intros r. destruct (door_closed r); simpl;
      [apply stateless_ret | apply stateless_raise].
Qed.

Lemma stateless_turn_on t o : stateless (turn_on t o).
Proof.
  unfold turn_on.
  destruct (in_range t min_temp max_temp); simpl;
    [|apply stateless_raise].
  apply stateless_bind.
  - destruct o; simpl; [apply stateless_ret | apply stateless_check_door].
  - intros _. apply (stateless_exchange (fun s a => start_request s a t)).
Qed.

Lemma stateless_call op : stateless (call op).
Proof.
  destruct op as [|t o| |t o|]; simpl.
  - rewrite status_exchange. apply stateless_exchange.
  - apply stateless_turn_on.
  - rewrite turn_off_exchange. apply stateless_exchange.
  - unfold set_temperature. apply stateless_bind;
      [apply stateless_turn_on | intros r; apply stateless_ret].
  - unfold status_from_status_or_stop. apply stateless_bind.
    + rewrite status_exchange. apply stateless_exchange.
    + intros r.
      destruct (schemas.status r =? SaunaStatus_value ONLINE_NOT_HEATING).
      * rewrite turn_off_exchange. apply stateless_exchange.
      * apply stateless_ret.
Qed.

Lemma exchange_cases f st :
  (exists attr, exchange f st = (Raise (AttributeError attr), st)) \/
  (exists s a,
      session (self st) = Some s /\ auth (self st) = Some a /\
      exchange f st = (outcome_result (answer st (f s a)), after st (f s a))).
Proof.
  unfold exchange.
  destruct (session (self st)) as [s|] eqn:Hs.
  2:{ left. exists "session"%string. unfold bind, get_session.
      rewrite Hs. reflexivity. }
  destruct (auth (self st)) as [a|] eqn:Ha.
  2:{ left. exists "auth"%string. unfold bind, get_session, get_auth.
      rewrite Hs, Ha. reflexivity. }
  right. exists s, a. repeat split. run_attrs Hs Ha. apply exchange_run.
Qed.

Lemma fetched_exchange f : fetched (exchange f).
Proof.
  intros st r H.
  destruct (exchange_cases f st) as [[attr E]|(s & a & _ & _ & E)];
    rewrite E in *; simpl in *; [discriminate|].
  apply outcome_result_Return in H as (code & body & Hout & _ & Hd).
  exists [], (f s a), code, body. rewrite Hout. auto.
Qed.

Lemma fetched_bind {A : Type} (c : M A) (k : A -> M HuumStatusResponse) :
  stateless c -> (forall a, fetched (k a)) -> fetched (bind c k).
Proof.
  intros Hc Hk st r. unfold bind.
  destruct (Hc st) as (_ & [l Hlog] & _).
  destruct (c st) as [[a|e] st1]; simpl in *; [|discriminate].
  intros H. destruct (Hk a st1 r H) as (earlier & rq & code & body & E & Hd).
  exists (l ++ earlier), rq, code, body.
  rewrite E, Hlog, <- !app_assoc. auto.
Qed.

Lemma fetched_turn_on t o : fetched (turn_on t o).
Proof.
  unfold turn_on.
  destruct (in_range t min_temp max_temp); simpl;
    [|intros st r; discriminate].
  apply fetched_bind.
  - destruct o; simpl; [apply stateless_ret | apply stateless_check_door].
  - intros _. apply (fetched_exchange (fun s a => start_request s a t)).
Qed.

Lemma fetched_call op : fetched (call op).
Proof.
  destruct op as [|t o| |t o|]; simpl.
  - rewrite status_exchange. apply fetched_exchange.
  - apply fetched_turn_on.
  - rewrite turn_off_exchange. apply fetched_exchange.
  - intros st r. rewrite set_temperature_run.
    apply fetched_turn_on.
  - intros st r. unfold status_from_status_or_stop, bind.
    pose proof (fetched_exchange status_request st) as Hs.
    pose proof (stateless_exchange status_request st) as (_ & [l Hl] & _).
    rewrite <- status_exchange in Hs, Hl.
    destruct (status st) as [[r0|e] st1]; simpl in *; [|discriminate].
    destruct (schemas.status r0 =? _).
    + intros H. rewrite turn_off_exchange in *.
      destruct (fetched_exchange stop_request st1 r H)
        as (earlier & rq & code & body & E & Hd).
      exists (l ++ earlier), rq, code, body.
      rewrite E, Hl, <- !app_assoc. auto.
    + simpl. intros [= ->]. apply Hs. reflexivity.
Qed.

(** C8: none of the five operations changes the client object (its
    credentials and its session); a response that an operation returns is
    the decoded body of the last exchange made during that very call; and
    the result of an operation is fixed by the client object and the remote
    service: the record of earlier exchanges and of their responses has no
    part in it. *)
Theorem C8_no_state_between_calls (op : Operation) (st : St) :
  self (snd (call op st)) = self st /\
  (forall r,
      fst (call op st) = Return r ->
      exists earlier rq code body,
        log (snd (call op st)) = log st ++ earlier ++ [(rq, Replied code body)] /\
        decode body = Some r) /\
  (forall st',
      self st' = self st -> net st' = net st ->
      fst (call op st') = fst (call op st)).
Proof.
  destruct (stateless_call op st) as (Hself & _ & Hdet).
  split; [exact Hself|]. split.
  - intros r H. exact (fetched_call op st r H).
  - intros st' Es En. apply (Hdet st' Es En).
Qed.

(** *** A client without a session *)

(** C10, as the code has it: constructed without a session (none passed, or
    [None] passed) the object has no [session] attribute, and with non-empty
    credentials, the user name free of colons, the construction still
    succeeds.  On such an object
    [status], [turn_off] and [status_from_status_or_stop], and [turn_on] and
    [set_temperature] with a temperature from 40 to 109, raise
    [AttributeError] for [session]; with any other temperature [turn_on] and
    [set_temperature] raise [ValueError] first.  In every case the state is
    untouched: no request is performed.  [open_session] is what gives the
    object a session. *)
Theorem C10_client_without_session (cfg : Settings)
    (username password : arg (option string))
    (sess : arg (option ClientSession)) (st : St) :
  arg_or None sess = None ->
  (huum.session (self (snd (Huum_new cfg username password sess st))) = None /\
   (forall u' p',
       arg_or (huum_username cfg) username = Some u' ->
       arg_or (huum_password cfg) password = Some p' ->
       u' <> ""%string -> p' <> ""%string ->
       has_colon u' = false ->
       fst (Huum_new cfg username password sess st) = Return tt)) /\
  (forall st0 : St,
      huum.session (self st0) = None ->
      status st0 = (Raise (AttributeError "session"), st0) /\
      turn_off st0 = (Raise (AttributeError "session"), st0) /\
      status_from_status_or_stop st0
      = (Raise (AttributeError "session"), st0) /\
      (forall t o,
          40 <= t < 110 ->
          turn_on t o st0 = (Raise (AttributeError "session"), st0) /\
          set_temperature t o st0
          = (Raise (AttributeError "session"), st0)) /\
      (forall t o,
          t < 40 \/ 110 <= t ->
          turn_on t o st0
          = (Raise (ValueError
               ("Temperature '" ++ str t ++ "' must be between 40-110")%string),
             st0) /\
          set_temperature t o st0 = turn_on t o st0)) /\
  (forall st0 : St,
      huum.session (self (snd (open_session st0)))
      = Some {| session_id := next_session st0 |}).
Proof.
  intros Hnone. split; [|split].
  - split.
    + unfold Huum_new, bind, new_object, __init__, bind. rewrite Hnone.
      simpl.
      destruct (truthy (arg_or (huum_username cfg) username)) as [u0|];
        [destruct (truthy (arg_or (huum_password cfg) password)) as [p0|]|];
        try reflexivity.
      destruct (BasicAuth_new u0 p0); reflexivity.
    + intros u' p' Hu Hp Nu Np Hc.
      rewrite (Huum_new_run _ _ _ _ _ u' p') by assumption. reflexivity.
  - intros st0 Hs.
    assert (Es : status st0 = (Raise (AttributeError "session"), st0))
      by now apply status_no_session.
    split; [exact Es|].
    split; [now apply turn_off_no_session|].
    split.
    { unfold status_from_status_or_stop, bind. rewrite Es. reflexivity. }
    split.
    + intros t o Ht.
      assert (E : turn_on t o st0 = (Raise (AttributeError "session"), st0)).
      { rewrite turn_on_in_range by assumption. destruct o.
        - unfold bind, get_session. rewrite Hs. reflexivity.
        - unfold _check_door, bind. rewrite Es. reflexivity. }
      split; [exact E|].
      unfold set_temperature, bind. rewrite E. reflexivity.
    + intros t o Ht. split.
      * unfold turn_on. rewrite (proj2 (in_range_false t) Ht). reflexivity.
      * apply set_temperature_run.
  - intros st0. reflexivity.
Qed.

(** *** The requests an operation sends *)

Lemma sent_after st rq : sent (after st rq) = sent st ++ [rq].
Proof. unfold sent. simpl. rewrite map_app. reflexivity. Qed.

(** One exchange sends its request when the client has a session and
    credentials, and nothing otherwise; the client object stays as it is. *)
Lemma exchange_sent f st :
  self (snd (exchange f st)) = self st /\
  sent (snd (exchange f st))
  = sent st ++ match session (self st), auth (self st) with
               | Some s, Some a => [f s a]
               | _, _ => []
               end.
Proof.
  destruct (session (self st)) as [s|] eqn:Hs.
  2:{ unfold exchange, bind, get_session. rewrite Hs. simpl.
      now rewrite app_nil_r. }
  destruct (auth (self st)) as [a|] eqn:Ha.
  2:{ unfold exchange, bind, get_session, get_auth. rewrite Hs, Ha. simpl.
      now rewrite app_nil_r. }
  assert (E : exchange f st
              = (outcome_result (answer st (f s a)), after st (f s a))).
  { unfold exchange. run_attrs Hs Ha. apply exchange_run. }
  rewrite E. simpl. split; [reflexivity | apply sent_after].
Qed.

Lemma status_sent st s a :
  session (self st) = Some s -> auth (self st) = Some a ->
  sent (snd (status st)) = sent st ++ [status_request s a].
Proof.
  intros Hs Ha. rewrite status_exchange.
  destruct (exchange_sent status_request st) as [_ E].
  rewrite E, Hs, Ha. reflexivity.
Qed.

(** What [turn_on] sends, read off the outcome of the status check. *)
Lemma turn_on_sent st s a t o :
  40 <= t < 110 ->
  session (self st) = Some s -> auth (self st) = Some a ->
  sent (snd (turn_on t o st))
  = sent st
      ++ (if o then [start_request s a t]
          else match fst (status st) with
               | Return r =>
                   if door_closed r
                   then [status_request s a; start_request s a t]
                   else [status_request s a]
               | Raise _ => [status_request s a]
               end).
Proof.
  intros Ht Hs Ha. destruct o.
  - rewrite (turn_on_override_run _ s a) by assumption. apply sent_after.
  - destruct (status st) as [[r|e] st1] eqn:H.
    + destruct (turn_on_checked_run _ t _ _ Ht H)
        as (s' & a' & Hs' & Ha' & -> & ->).
      assert (s' = s) as -> by congruence.
      assert (a' = a) as -> by congruence.
      simpl. destruct (door_closed r); simpl.
      * rewrite !sent_after, <- app_assoc. reflexivity.
      * apply sent_after.
    + rewrite (turn_on_check_raises _ _ _ _ Ht H). simpl.
      pose proof (status_sent st s a Hs Ha) as E.
      rewrite H in E. exact E.
Qed.

Lemma turn_on_out_of_range_sent st t o :
  t < 40 \/ 110 <= t ->
  snd (turn_on t o st) = st.
Proof.
  intros Ht. unfold turn_on.
  rewrite (proj2 (in_range_false t) Ht). reflexivity.
Qed.

Lemma turn_on_without_attrs_sent st t o :
  session (self st) = None \/ auth (self st) = None ->
  sent (snd (turn_on t o st)) = sent st.
Proof.
  intros Hn.
  destruct (Z.lt_ge_cases t 40) as [Hl|Hl];
    [rewrite turn_on_out_of_range_sent by auto; reflexivity|].
  destruct (Z.lt_ge_cases t 110) as [Hu|Hu];
    [|rewrite turn_on_out_of_range_sent by auto; reflexivity].
  assert (Ht : 40 <= t < 110) by lia.
  assert (Ex : forall f st0,
             self st0 = self st ->
             sent (snd (exchange f st0)) = sent st0).
  { intros f st0 E0. destruct (exchange_sent f st0) as [_ E].
    rewrite E, E0.
    destruct Hn as [-> | ->]; [|destruct (session (self st))];
      apply app_nil_r. }
  rewrite turn_on_in_range by assumption. destruct o.
  - apply (Ex (fun s a => start_request s a t)). reflexivity.
  - unfold _check_door, bind. rewrite status_exchange.
    pose proof (Ex status_request st eq_refl) as E1.
    destruct (exchange_sent status_request st) as [Eself _].
    destruct (exchange status_request st) as [[r|e] st1]; simpl in *;
      [|exact E1].
    destruct (door_closed r); simpl; [|exact E1].
    rewrite <- E1. apply (Ex (fun s a => start_request s a t)). exact Eself.
Qed.

(** What [status_from_status_or_stop] sends, read off the status it got. *)
Lemma status_from_status_or_stop_sent st :
  sent (snd (status_from_status_or_stop st))
  = sent st
      ++ match session (self st), auth (self st) with
         | Some s, Some a =>
             match fst (status st) with
             | Return r =>
                 if schemas.status r =? SaunaStatus_value ONLINE_NOT_HEATING
                 then [status_request s a; stop_request s a]
                 else [status_request s a]
             | Raise _ => [status_request s a]
             end
         | _, _ => []
         end.
Proof.
  unfold status_from_status_or_stop, bind. rewrite status_exchange.
  destruct (exchange_sent status_request st) as [Eself E1].
  destruct (exchange status_request st) as [[r|e] st1]; simpl in *.
  - destruct (schemas.status r =? _).
    + rewrite turn_off_exchange.
      destruct (exchange_sent stop_request st1) as [_ E2].
      rewrite E2, E1, Eself, <- app_assoc.
      destruct (session (self st)); [destruct (auth (self st))|];
        reflexivity.
    + simpl. rewrite E1.
      destruct (session (self st)); [destruct (auth (self st))|];
        reflexivity.
  - rewrite E1.
    destruct (session (self st)); [destruct (auth (self st))|];
      reflexivity.
Qed.

Lemma call_sent op st s a :
  session (self st) = Some s -> auth (self st) = Some a ->
  sent (snd (call op st)) = sent st ++ requests_of op s a (fst (status st)).
Proof.
  intros Hs Ha.
  assert (Eon : forall t o,
             sent (snd (turn_on t o st))
             = sent st ++ requests_of (op_turn_on t o) s a (fst (status st))).
  { intros t o. simpl.
    destruct (in_range t min_temp max_temp) eqn:R.
    - apply turn_on_sent; try assumption. now apply in_range_true.
    - rewrite turn_on_out_of_range_sent by now apply in_range_false.
      now rewrite app_nil_r. }
  destruct op as [|t o| |t o|].
  - apply status_sent; assumption.
  - apply Eon.
  - cbn [call requests_of]. rewrite turn_off_exchange.
    destruct (exchange_sent stop_request st) as [_ E].
    rewrite E, Hs, Ha. reflexivity.
  - cbn [call]. rewrite set_temperature_run. apply Eon.
  - cbn [call requests_of]. rewrite status_from_status_or_stop_sent, Hs, Ha.
    reflexivity.
Qed.

Lemma call_sent_without_attrs op st :
  session (self st) = None \/ auth (self st) = None ->
  sent (snd (call op st)) = sent st.
Proof.
  intros Hn.
  assert (Ex : forall f, sent (snd (exchange f st)) = sent st).
  { intros f. destruct (exchange_sent f st) as [_ E]. rewrite E.
    destruct Hn as [-> | ->]; [|destruct (session (self st))];
      apply app_nil_r. }
  destruct op as [|t o| |t o|]; cbn [call].
  - rewrite status_exchange. apply Ex.
  - now apply turn_on_without_attrs_sent.
  - rewrite turn_off_exchange. apply Ex.
  - rewrite set_temperature_run. now apply turn_on_without_attrs_sent.
  - rewrite status_from_status_or_stop_sent.
    destruct Hn as [-> | ->]; [|destruct (session (self st))];
      apply app_nil_r.
Qed.

(** Every request of [requests_of] goes through [s] with [a], to one of the
    three endpoints, and a start request carries the operation's own
    temperature, which is then in range. *)
Lemma requests_of_In op s a check rq :
  In rq (requests_of op s a check) ->
  rq = status_request s a \/ rq = stop_request s a \/
  exists t o,
    (op = op_turn_on t o \/ op = op_set_temperature t o) /\
    40 <= t < 110 /\ rq = start_request s a t /\
    (o = false ->
     exists r, check = Return r /\ door_closed r = true).
Proof.
  assert (On : forall t o,
             op = op_turn_on t o \/ op = op_set_temperature t o ->
             In rq (requests_of (op_turn_on t o) s a check) ->
             rq = status_request s a \/ rq = stop_request s a \/
             exists t0 o0,
               (op = op_turn_on t0 o0 \/ op = op_set_temperature t0 o0) /\
               40 <= t0 < 110 /\ rq = start_request s a t0 /\
               (o0 = false ->
                exists r, check = Return r /\ door_closed r = true)).
  { intros t o Hop. simpl.
    destruct (in_range t min_temp max_temp) eqn:R; [|intros []].
    apply in_range_true in R.
    destruct o.
    - intros [<-|[]]. right. right. exists t, true.
      split; [exact Hop|]. split; [exact R|]. split; [reflexivity|].
      discriminate.
    - destruct check as [r|e].
      + destruct (door_closed r) eqn:Hd.
        * intros [<-|[<-|[]]]; [auto|].
          right. right. exists t, false.
          split; [exact Hop|]. split; [exact R|]. split; [reflexivity|].
          intros _. exists r. auto.
        * intros [<-|[]]. auto.
      + intros [<-|[]]. auto. }
  destruct op as [|t o| |t o|].
  - simpl. intros [<-|[]]. auto.
  - apply On. auto.
  - simpl. intros [<-|[]]. auto.
  - apply On. auto.
  - simpl. destruct check as [r|e]; [destruct (schemas.status r =? 232)|];
      simpl; intuition auto.
Qed.

(** X1: what a call sends.  Without a session or without credentials no
    operation sends anything.  With both, [status] sends its one GET and
    [turn_off] its one stop request whatever comes back;
    [status_from_status_or_stop] sends the status request and at most the
    stop request after it; [turn_on] and [set_temperature] send nothing for a
    temperature outside 40..109, the start request alone with
    [safety_override], and otherwise the status request followed by at most
    the start request.  So no call sends more than two requests, and none
    repeats one. *)
Theorem requests_of_a_call (op : Operation) (st : St) :
  exists new,
    sent (snd (call op st)) = sent st ++ new /\
    (session (self st) = None \/ auth (self st) = None -> new = []) /\
    (forall s a,
        session (self st) = Some s -> auth (self st) = Some a ->
        match op with
        | op_status => new = [status_request s a]
        | op_turn_off => new = [stop_request s a]
        | op_status_from_status_or_stop =>
            new = [status_request s a] \/
            new = [status_request s a; stop_request s a]
        | op_turn_on t o | op_set_temperature t o =>
            (t < 40 \/ 110 <= t) /\ new = [] \/
            40 <= t < 110 /\
            if o then new = [start_request s a t]
            else new = [status_request s a] \/
                 new = [status_request s a; start_request s a t]
        end).
Proof.
  destruct (session (self st)) as [s|] eqn:Hs.
  2:{ exists []. rewrite app_nil_r.
      split; [apply call_sent_without_attrs; auto|].
      split; [reflexivity | discriminate]. }
  destruct (auth (self st)) as [a|] eqn:Ha.
  2:{ exists []. rewrite app_nil_r.
      split; [apply call_sent_without_attrs; auto|].
      split; [reflexivity | discriminate]. }
  exists (requests_of op s a (fst (status st))).
  split; [now apply call_sent|].
  split; [intros [H|H]; discriminate|].
  intros s' a' [= <-] [= <-].
  assert (On : forall t o,
             (t < 40 \/ 110 <= t) /\
             requests_of (op_turn_on t o) s a (fst (status st)) = [] \/
             40 <= t < 110 /\
             if o
             then requests_of (op_turn_on t o) s a (fst (status st))
                  = [start_request s a t]
             else requests_of (op_turn_on t o) s a (fst (status st))
                  = [status_request s a] \/
                  requests_of (op_turn_on t o) s a (fst (status st))
                  = [status_request s a; start_request s a t]).
  { intros t o. simpl.
    destruct (in_range t min_temp max_temp) eqn:R.
    - right. split; [now apply in_range_true|].
      destruct o; [reflexivity|].
      destruct (fst (status st)) as [r|e]; [destruct (door_closed r)|];
        auto.
    - left. split; [now apply in_range_false | reflexivity]. }
  destruct op as [|t o| |t o|]; try reflexivity; try apply On.
  simpl. destruct (fst (status st)) as [r|e];
    [destruct (schemas.status r =? 232)|]; auto.
Qed.

(** X2: without [safety_override], [turn_on] sends a start request only
    after a status check that returned a response with the door closed.
    When the check raises (no connection, an HTTP error, a body that does
    not decode) or reports the door open, nothing goes to the start
    endpoint. *)
Theorem start_needs_closed_door (t : Z) (st : St)
    (new : list Request) (rq : Request) :
  sent (snd (turn_on t false st)) = sent st ++ new ->
  In rq new ->
  req_url rq = urljoin API_BASE "start" ->
  exists r st1 s a,
    status st = (Return r, st1) /\ door_closed r = true /\
    40 <= t < 110 /\ rq = start_request s a t.
Proof.
  intros Hsent Hin Hurl.
  change (turn_on t false st) with (call (op_turn_on t false) st) in Hsent.
  destruct (session (self st)) as [s|] eqn:Hs.
  2:{ rewrite (call_sent_without_attrs (op_turn_on t false)) in Hsent by auto.
      rewrite <- (app_nil_r (sent st)) in Hsent at 1.
      apply app_inv_head in Hsent. subst new. destruct Hin. }
  destruct (auth (self st)) as [a|] eqn:Ha.
  2:{ rewrite (call_sent_without_attrs (op_turn_on t false)) in Hsent by auto.
      rewrite <- (app_nil_r (sent st)) in Hsent at 1.
      apply app_inv_head in Hsent. subst new. destruct Hin. }
  rewrite (call_sent (op_turn_on t false) st s a Hs Ha) in Hsent.
  apply app_inv_head in Hsent. subst new.
  apply requests_of_In in Hin.
  destruct Hin as [-> | [-> | (t0 & o0 & Hop & Ht0 & -> & Hcheck)]];
    [discriminate Hurl | discriminate Hurl |].
  assert (t0 = t /\ o0 = false) as [-> ->]
    by (destruct Hop as [[= -> ->] | [=]]; auto).
  destruct (Hcheck eq_refl) as (r & Er & Hd).
  destruct (status st) as [res st1] eqn:E. simpl in Er. subst res.
  exists r, st1, s, a. auto.
Qed.

(** X3: a client constructed with non-empty credentials and a session sends
    every request of every operation through that session and with those
    credentials, whether they were passed or came from the settings. *)
Theorem requests_carry_constructor_arguments (cfg : Settings)
    (username password : arg (option string))
    (sess : arg (option ClientSession)) (st : St)
    (u p : string) (s : ClientSession)
    (op : Operation) (new : list Request) (rq : Request) :
  arg_or (huum_username cfg) username = Some u ->
  arg_or (huum_password cfg) password = Some p ->
  u <> ""%string -> p <> ""%string ->
  arg_or None sess = Some s ->
  let st0 := snd (Huum_new cfg username password sess st) in
  sent (snd (call op st0)) = sent st0 ++ new ->
  In rq new ->
  req_session rq = s /\ req_auth rq = {| login := u; password := p |}.
Proof.
  intros Hu Hp Nu Np Hsess st0 Hsent Hin.
  destruct (has_colon u) eqn:Hc.
  { assert (Ha : auth (self st0) = None).
    { unfold st0. rewrite (Huum_new_colon _ _ _ _ _ u p) by assumption.
      reflexivity. }
    rewrite call_sent_without_attrs in Hsent by auto.
    rewrite <- (app_nil_r (sent st0)) in Hsent at 1.
    apply app_inv_head in Hsent. subst new. destruct Hin. }
  assert (Hs : session (self st0) = Some s).
  { unfold st0. rewrite (Huum_new_run _ _ _ _ _ u p) by assumption.
    exact Hsess. }
  assert (Ha : auth (self st0) = Some {| login := u; password := p |}).
  { unfold st0. rewrite (Huum_new_run _ _ _ _ _ u p) by assumption.
    reflexivity. }
  rewrite (call_sent op st0 _ _ Hs Ha) in Hsent.
  apply app_inv_head in Hsent. subst new.
  apply requests_of_In in Hin.
  destruct Hin as [-> | [-> | (t0 & o0 & _ & _ & -> & _)]];
    split; reflexivity.
Qed.

(** X4: [open_session] sends nothing and keeps the credentials; it gives
    the client a session that no earlier [open_session] of this run created,
    in place of the one it had, and the next [status] goes through it. *)
Theorem open_session_then_status (st : St) (a : BasicAuth) :
  auth (self st) = Some a ->
  let st1 := snd (open_session st) in
  let s1 := {| session_id := next_session st |} in
  fst (open_session st) = Return tt /\
  self st1 = {| session := Some s1; auth := Some a |} /\
  log st1 = log st /\ net st1 = net st /\
  sent (snd (status st1)) = sent st ++ [status_request s1 a] /\
  session (self (snd (open_session st1))) <> Some s1.
Proof.
  intros Ha st1 s1.
  split; [reflexivity|].
  split; [unfold st1, open_session, bind; simpl; now rewrite Ha|].
  split; [reflexivity|]. split; [reflexivity|].
  split.
  - rewrite (status_sent st1 s1 a); [reflexivity | reflexivity |].
    unfold st1, open_session, bind. simpl. exact Ha.
  - unfold st1, s1, open_session, bind. simpl.
    intros [= E]. lia.
Qed.

End Client.

(** ** Concrete runs

    Each statement above that has premises is applied here to a scripted
    remote service. *)

Lemma C1_reconciled_status_witness :
  let st := scripted_state a_client
              [Replied 200 response_idle; Replied 200 response_stopped] in
  let st1 := after _ _ scripted_serve st
               (status_request a_session some_auth) in
  let st' := scripted_state a_client [ConnectionFailed] in
  status_from_status_or_stop _ _ scripted_serve Some st
  = turn_off _ _ scripted_serve Some st1 /\
  fst (status_from_status_or_stop _ _ scripted_serve Some st)
  = Return response_stopped /\
  status_from_status_or_stop _ _ scripted_serve Some st'
  = (Raise ClientConnectionError,
     after _ _ scripted_serve st' (status_request a_session some_auth)).
Proof.
  intros st st1 st'.
  destruct (C1_reconciled_status _ _ scripted_serve Some st) as [H _].
  destruct (H response_idle st1 eq_refl) as [H1 _].
  destruct (H1 eq_refl) as [E _].
  split; [exact E|]. split; [rewrite E; reflexivity|].
  destruct (C1_reconciled_status _ _ scripted_serve Some st') as [_ H'].
  apply H'. reflexivity.
Defined.

Lemma C2_door_open_refused_witness :
  let st := scripted_state a_client
              [Replied 200 response_door_open; Replied 200 response_heating] in
  turn_on _ _ scripted_serve Some 80 false st
  = (Raise (SafetyException "Can not start sauna when door is open"),
     after _ _ scripted_serve st (status_request a_session some_auth)).
Proof.
  intros st.
  apply (C2_door_open_refused _ _ scripted_serve Some 80 st
           response_door_open
           (after _ _ scripted_serve st (status_request a_session some_auth))).
  - lia.
  - reflexivity.
  - reflexivity.
Defined.

Lemma C3_temperature_validation_witness :
  let st := scripted_state a_client [Replied 200 response_heating] in
  turn_on _ _ scripted_serve Some 110 false st
  = (Raise (ValueError "Temperature '110' must be between 40-110"), st) /\
  fst (turn_on _ _ scripted_serve Some 109 true st)
  <> Raise (ValueError "Temperature '109' must be between 40-110").
Proof.
  intros st. split.
  - apply (proj1 (C3_temperature_validation _ _ scripted_serve Some
                    110 false st)).
    right. lia.
  - apply (proj2 (C3_temperature_validation _ _ scripted_serve Some
                    109 true st)).
    lia.
Defined.

Lemma C4_turn_on_requests_witness :
  let st := scripted_state a_client
              [Replied 200 response_idle; Replied 200 response_heating] in
  sent _ _ (snd (turn_on _ _ scripted_serve Some 80 true st))
  = [start_request a_session some_auth 80] /\
  exists s a,
    sent _ _ (snd (turn_on _ _ scripted_serve Some 80 false st))
    = [status_request s a; start_request s a 80].
Proof.
  intros st.
  assert (Ht : 40 <= 80 < 110) by lia.
  destruct (C4_turn_on_requests _ _ scripted_serve Some 80 st Ht)
    as [Hchecked Hoverride].
  split.
  - apply (Hoverride a_session some_auth); reflexivity.
  - destruct (Hchecked response_idle
                (after _ _ scripted_serve st
                   (status_request a_session some_auth))
                eq_refl eq_refl) as (s & a & E & _).
    exists s, a. exact E.
Defined.

Lemma C5_status_http_error_witness :
  let st := scripted_state a_client [Replied 401 response_idle] in
  status _ _ scripted_serve Some st
  = (Raise (ClientResponseError 401),
     after _ _ scripted_serve st (status_request a_session some_auth)).
Proof.
  intros st.
  apply (C5_status_http_error _ _ scripted_serve Some st
           a_session some_auth 401 response_idle).
  - reflexivity.
  - reflexivity.
  - reflexivity.
  - lia.
Defined.

(** C5, as stated, fails: the exception that a 401 or a 403 produces is of
    the very class that a 500 produces. *)
Lemma C5_counterexample :
  exists e401 e403 e500,
    fst (status _ _ scripted_serve Some
           (scripted_state a_client [Replied 401 response_idle]))
    = Raise e401 /\
    fst (status _ _ scripted_serve Some
           (scripted_state a_client [Replied 403 response_idle]))
    = Raise e403 /\
    fst (status _ _ scripted_serve Some
           (scripted_state a_client [Replied 500 response_idle]))
    = Raise e500 /\
    class_of e401 = class_of e500 /\ class_of e403 = class_of e500.
Proof.
  exists (ClientResponseError 401), (ClientResponseError 403),
    (ClientResponseError 500).
  repeat split; reflexivity.
Qed.

Lemma C6_construction_witness :
  let cfg := {| huum_username := Some "foo"%string;
                huum_password := None |} in
  let st := scripted_state a_client_without_session [] in
  fst (Huum_new _ _ cfg omitted (passed (Some ""%string))
         (passed (Some a_session)) st)
  = Raise (ValueError
      "No username or password provided either by the environment nor explicitly") /\
  Huum_new _ _ cfg omitted (passed (Some "bar"%string))
    (passed (Some a_session)) st
  = (Return tt, scripted_state a_client []) /\
  log (snd (Huum_new _ _ cfg (passed (Some "a:b"%string))
              (passed (Some "c"%string)) (passed (Some a_session)) st))
  = [].
Proof.
  intros cfg st. split; [|split].
  - apply (proj1 (C6_construction _ _ cfg omitted (passed (Some ""%string))
                    (passed (Some a_session)) st)).
    right. right. right. reflexivity.
  - destruct (proj2 (C6_construction _ _ cfg omitted
                       (passed (Some "bar"%string))
                       (passed (Some a_session)) st)
                "foo"%string "bar"%string) as [Hok _].
    + reflexivity.
    + reflexivity.
    + discriminate.
    + discriminate.
    + apply Hok. reflexivity.
  - destruct (proj2 (C6_construction _ _ cfg (passed (Some "a:b"%string))
                       (passed (Some "c"%string))
                       (passed (Some a_session)) st)
                "a:b"%string "c"%string) as [_ Hcolon].
    + reflexivity.
    + reflexivity.
    + discriminate.
    + discriminate.
    + destruct (Hcolon eq_refl) as (_ & _ & Hlog). exact Hlog.
Defined.

(** C6, as stated, fails: a user name with a colon and a password, both
    non-empty, do not make a client; the constructor raises [ValueError]. *)
Lemma C6_counterexample :
  "a:b"%string <> ""%string /\ "c"%string <> ""%string /\
  exists msg,
    fst (Huum_new _ _ {| huum_username := None; huum_password := None |}
           (passed (Some "a:b"%string)) (passed (Some "c"%string))
           (passed (Some a_session))
           (scripted_state a_client_without_session []))
    = Raise (ValueError msg).
Proof.
  split; [discriminate|]. split; [discriminate|].
  eexists. reflexivity.
Qed.


Lemma C8_no_state_between_calls_witness :
  let st := scripted_state a_client
              [Replied 200 response_idle; Replied 200 response_stopped] in
  let st' := {| self := a_client;
                net := [Replied 200 response_idle;
                        Replied 200 response_stopped];
                log := [(status_request a_session some_auth,
                         Replied 200 response_heating)];
                next_session := 1 |} in
  (exists earlier rq code body,
      log (snd (call _ _ scripted_serve Some
                  op_status_from_status_or_stop st))
      = log st ++ earlier ++ [(rq, Replied code body)] /\
      Some body = Some response_stopped) /\
  fst (call _ _ scripted_serve Some op_status_from_status_or_stop st')
  = fst (call _ _ scripted_serve Some op_status_from_status_or_stop st).
Proof.
  intros st st'.
  destruct (C8_no_state_between_calls _ _ scripted_serve Some
              op_status_from_status_or_stop st) as (_ & Hfresh & Hdet).
  split.
  - apply Hfresh. reflexivity.
  - apply Hdet; reflexivity.
Defined.

Lemma C9_door_check_ignores_status_witness :
  let st := scripted_state a_client
              [Replied 200 response_emergency; Replied 200 response_heating] in
  let st1 := after _ _ scripted_serve st
               (status_request a_session some_auth) in
  schemas.status response_emergency = SaunaStatus_value EMERGENCY_STOP /\
  _check_door _ _ scripted_serve Some st = (Return tt, st1) /\
  exists s a,
    turn_on _ _ scripted_serve Some 80 false st
    = (outcome_result _ Some
         (answer _ _ scripted_serve st1 (start_request s a 80)),
       after _ _ scripted_serve st1 (start_request s a 80)) /\
    sent _ _ (snd (turn_on _ _ scripted_serve Some 80 false st))
    = sent _ _ st1 ++ [start_request s a 80].
Proof.
  intros st st1. split; [reflexivity|].
  apply (C9_door_check_ignores_status _ _ scripted_serve Some 80 st
           response_emergency st1).
  - lia.
  - reflexivity.
  - reflexivity.
Defined.

Lemma C10_client_without_session_witness :
  let cfg := {| huum_username := Some "foo"%string;
                huum_password := Some "bar"%string |} in
  let st := scripted_state a_client [Replied 200 response_heating] in
  let st0 := scripted_state a_client_without_session
               [Replied 200 response_heating] in
  Huum_new _ _ cfg omitted omitted omitted st = (Return tt, st0) /\
  status _ _ scripted_serve Some st0
  = (Raise (AttributeError "session"), st0) /\
  turn_on _ _ scripted_serve Some 80 true st0
  = (Raise (AttributeError "session"), st0) /\
  turn_on _ _ scripted_serve Some 30 true st0
  = (Raise (ValueError "Temperature '30' must be between 40-110"), st0).
Proof.
  intros cfg st st0.
  destruct (C10_client_without_session _ _ scripted_serve Some
              cfg omitted omitted omitted st eq_refl)
    as ((_ & Hnew) & Hops & _).
  split.
  - specialize (Hnew "foo"%string "bar"%string eq_refl eq_refl).
    assert (N1 : "foo"%string <> ""%string) by discriminate.
    assert (N2 : "bar"%string <> ""%string) by discriminate.
    specialize (Hnew N1 N2 eq_refl). clear - Hnew. reflexivity.
  - destruct (Hops st0 eq_refl) as (Hs & _ & _ & Hin & Hout).
    split; [exact Hs|]. split.
    + apply Hin. lia.
    + apply Hout. left. lia.
Defined.

(** C10, as stated, fails: on a client without a session, [turn_on] with an
    out-of-range temperature raises [ValueError], not [AttributeError]. *)
Lemma C10_counterexample :
  let st0 := scripted_state a_client_without_session
               [Replied 200 response_heating] in
  session (self st0) = None /\
  exists e,
    turn_on _ _ scripted_serve Some 30 false st0 = (Raise e, st0) /\
    class_of e = cls_ValueError /\
    class_of e <> cls_AttributeError.
Proof.
  intros st0. split; [reflexivity|].
  exists (ValueError "Temperature '30' must be between 40-110").
  split; [reflexivity|]. split; [reflexivity | discriminate].
Qed.

(** *** The status texts *)

(** X12: [STATUS_CODE_TEXTS] has a text for the code of every member of
    [SaunaStatus] and for no other code; different members have different
    codes and different texts. *)
Theorem status_texts_cover_the_enum :
  (forall v, exists text,
      dict_get STATUS_CODE_TEXTS (SaunaStatus_value v) = Some text) /\
  (forall k text,
      dict_get STATUS_CODE_TEXTS k = Some text ->
      exists v, k = SaunaStatus_value v) /\
  (forall v v', SaunaStatus_value v = SaunaStatus_value v' -> v = v') /\
  (forall v v',
      dict_get STATUS_CODE_TEXTS (SaunaStatus_value v)
      = dict_get STATUS_CODE_TEXTS (SaunaStatus_value v') ->
      v = v').
Proof.
  split; [|split; [|split]].
  - intros v. destruct v; eexists; reflexivity.
  - intros k text. unfold dict_get, STATUS_CODE_TEXTS.
    cbn [find fst snd SaunaStatus_value].
    destruct (Z.eqb_spec 230 k) as [<-|_]; [exists OFFLINE; reflexivity|].
    destruct (Z.eqb_spec 231 k) as [<-|_];
      [exists ONLINE_HEATING; reflexivity|].
    destruct (Z.eqb_spec 232 k) as [<-|_];
      [exists ONLINE_NOT_HEATING; reflexivity|].
    destruct (Z.eqb_spec 233 k) as [<-|_]; [exists LOCKED; reflexivity|].
    destruct (Z.eqb_spec 400 k) as [<-|_];
      [exists EMERGENCY_STOP; reflexivity|].
    intros E. discriminate E.
  - intros v v'. destruct v, v'; simpl; intros E;
      try reflexivity; discriminate E.
  - intros v v'. destruct v, v'; intros E;
      try reflexivity; discriminate E.
Qed.

(** *** Concrete runs of the operations *)

Lemma requests_of_a_call_witness :
  exists new,
    sent _ _ (snd (call _ _ scripted_serve Some (op_turn_on 80 false)
                     (scripted_state a_client
                        [Replied 200 response_idle;
                         Replied 200 response_heating])))
    = [] ++ new /\
    (new = [status_request a_session some_auth] \/
     new = [status_request a_session some_auth;
            start_request a_session some_auth 80]).
Proof.
  destruct (requests_of_a_call _ _ scripted_serve Some (op_turn_on 80 false)
              (scripted_state a_client
                 [Replied 200 response_idle; Replied 200 response_heating]))
    as (new & Hsent & _ & Hshape).
  exists new. split; [exact Hsent|].
  destruct (Hshape a_session some_auth eq_refl eq_refl)
    as [[[Hlow|Hhigh] _] | [_ Hnew]]; [lia | lia | exact Hnew].
Defined.

Lemma start_needs_closed_door_witness :
  exists r st1 s a,
    status _ _ scripted_serve Some
      (scripted_state a_client
         [Replied 200 response_emergency; Replied 500 response_idle])
    = (Return r, st1) /\
    door_closed r = true /\ 40 <= 55 < 110 /\
    start_request a_session some_auth 55 = start_request s a 55.
Proof.
  apply (start_needs_closed_door _ _ scripted_serve Some 55
           (scripted_state a_client
              [Replied 200 response_emergency; Replied 500 response_idle])
           [status_request a_session some_auth;
            start_request a_session some_auth 55]).
  - reflexivity.
  - right. left. reflexivity.
  - reflexivity.
Defined.

Lemma requests_carry_constructor_arguments_witness :
  req_session (stop_request a_session some_auth) = a_session /\
  req_auth (stop_request a_session some_auth)
  = {| login := "foo"; password := "bar" |}.
Proof.
  apply (requests_carry_constructor_arguments _ _ scripted_serve Some
           {| huum_username := Some "foo"%string; huum_password := None |}
           omitted (passed (Some "bar"%string)) (passed (Some a_session))
           (scripted_state a_client_without_session
              [Replied 200 response_idle; Replied 200 response_stopped])
           "foo"%string "bar"%string a_session
           op_status_from_status_or_stop
           [status_request a_session some_auth;
            stop_request a_session some_auth]).
  - reflexivity.
  - reflexivity.
  - discriminate.
  - discriminate.
  - reflexivity.
  - reflexivity.
  - right. left. reflexivity.
Defined.

Lemma open_session_then_status_witness :
  let st := scripted_state a_client_without_session
              [Replied 200 response_heating] in
  sent _ _ (snd (status _ _ scripted_serve Some
                   (snd (open_session _ _ st))))
  = [status_request {| session_id := 1 |} some_auth].
Proof.
  intros st.
  destruct (open_session_then_status _ _ scripted_serve Some st some_auth
              eq_refl) as (_ & _ & _ & _ & E & _).
  exact E.
Defined.

End huum.

(** ** climate.py

    The [HuumDevice] entity that the host polls and commands.  Its
    [_huum_handler] is the one client object of the state; the entity's own
    attributes are [_status], [_title] and [_target_temperature].  The
    constructor, which derives [_title] from a UUID, is not part of the
    model. *)

Module climate.
Import schemas huum.

(** The host's [HVACMode] enumeration. *)
Inductive HVACMode : Type :=
| OFF
| HEAT
| COOL
| HEAT_COOL
| AUTO
| DRY
| FAN_ONLY.

Definition HVACMode_eqb (m n : HVACMode) : bool :=
  match m, n with
  | OFF, OFF | HEAT, HEAT | COOL, COOL | HEAT_COOL, HEAT_COOL
  | AUTO, AUTO | DRY, DRY | FAN_ONLY, FAN_ONLY => true
  | _, _ => false
  end.

(** The class attributes; the host's [min_temp] property returns
    [_attr_min_temp] when the class sets it. *)
Definition _attr_max_temp : Z := 110.
Definition _attr_min_temp : Z := 40.
Definition min_temp : Z := _attr_min_temp.

(** The entity's attributes; [_target_temperature] starts as the class
    attribute, 40. *)
Record HuumDevice : Type := {
  _status : HuumStatusResponse;
  _title : string;
  _target_temperature : Z
}.

(** The entity together with the state its handler runs in. *)
Record Home (Body W : Type) : Type := {
  entity : HuumDevice;
  client : State Body W
}.
Arguments Build_Home {Body W} entity client.
Arguments entity {Body W} h.
Arguments client {Body W} h.

(** [HuumDevice.hvac_mode]. *)
Definition hvac_mode (d : HuumDevice) : HVACMode :=
  if schemas.status (_status d) =? SaunaStatus_value ONLINE_HEATING
  then HEAT
  else OFF.

(** [HuumDevice.icon]. *)
Definition icon (d : HuumDevice) : string :=
  if HVACMode_eqb (hvac_mode d) HEAT
  then "mdi:radiator"
  else "mdi:radiator-off".

(** [HuumDevice.current_temperature]. *)
Definition current_temperature (d : HuumDevice) : option Q :=
  temperature (_status d).

(** [HuumDevice.target_temperature]: Python's [or] falls through to the
    stored value when the status has no target temperature or has 0. *)
Definition target_temperature (d : HuumDevice) : Z :=
  match schemas.target_temperature (_status d) with
  | Some t => if t =? 0 then _target_temperature d else t
  | None => _target_temperature d
  end.

(** A freshly set up entity on a scripted remote service. *)
Definition scripted_home (last_status : HuumStatusResponse) (handler : Huum)
    (script : list (Outcome HuumStatusResponse))
  : Home HuumStatusResponse (list (Outcome HuumStatusResponse)) :=
  {| entity := {| _status := last_status; _title := "huum_sauna";
                  _target_temperature := 40 |};
     client := scripted_state handler script |}.

Section Device.

Variable Body : Type.
Variable W : Type.
Variable serve : W -> Request -> W * Outcome Body.
Variable decode : Body -> option HuumStatusResponse.

(** Whether the exception that a rejected body raises derives from
    [ValueError], as [json.JSONDecodeError] and the schema's validation
    error do; the model has a single exception for rejected bodies, so the
    answer is left open. *)
Variable body_error_is_ValueError : bool.

Abbreviation H := (Home Body W).

Definition D (A : Type) : Type := H -> Result A * H.

Definition dret {A : Type} (a : A) : D A := fun h => (Return a, h).

Definition dbind {A B : Type} (c : D A) (k : A -> D B) : D B :=
  fun h =>
    match c h with
    | (Return a, h') => k a h'
    | (Raise e, h') => (Raise e, h')
    end.

Notation "x <- c ;; k" := (dbind c (fun x => k))
  (at level 100, c at next level, right associativity).
Notation "c ;;; k" := (dbind c (fun _ => k))
  (at level 100, right associativity).

(** [await self._huum_handler.m(...)]. *)
Definition handler {A : Type} (c : M Body W A) : D A :=
  fun h =>
    let (r, st') := c (client h) in
    (r, {| entity := entity h; client := st' |}).

Definition get_entity : D HuumDevice := fun h => (Return (entity h), h).

(** [self._status = r] and [self._target_temperature = t]. *)
Definition set_status (r : HuumStatusResponse) : D unit :=
  fun h =>
    (Return tt,
     {| entity := {| _status := r; _title := _title (entity h);
                     _target_temperature := _target_temperature (entity h) |};
        client := client h |}).

Definition set_target_temperature (t : Z) : D unit :=
  fun h =>
    (Return tt,
     {| entity := {| _status := _status (entity h);
                     _title := _title (entity h);
                     _target_temperature := t |};
        client := client h |}).

(** What [except (ValueError, SafetyException)] catches. *)
Definition caught (e : exn) : bool :=
  match e with
  | ValueError _ => true
  | SafetyException _ => true
  | ResponseBodyError => body_error_is_ValueError
  | AttributeError _ => false
  | ClientConnectionError => false
  | ClientResponseError _ => false
  end.

(** [HuumDevice._turn_on]: the response is dropped, a caught exception is
    logged and dropped. *)
Definition _turn_on (temperature : Z) : D unit :=
  fun h =>
    match handler (turn_on Body W serve decode temperature false) h with
    | (Return _, h') => (Return tt, h')
    | (Raise e, h') => if caught e then (Return tt, h') else (Raise e, h')
    end.

(** [HuumDevice.async_set_hvac_mode]. *)
Definition async_set_hvac_mode (hvac_mode : HVACMode) : D unit :=
  if HVACMode_eqb hvac_mode HEAT then
    d <- get_entity ;;
    let temperature := Z.max min_temp (target_temperature d) in
    _turn_on temperature
  else if HVACMode_eqb hvac_mode OFF then
    handler (turn_off Body W serve decode) ;;;
    dret tt
  else dret tt.

(** [HuumDevice.async_set_temperature], its argument being
    [kwargs.get(ATTR_TEMPERATURE)]. *)
Definition async_set_temperature (temperature : option Z) : D unit :=
  match temperature with
  | None => dret tt
  | Some temperature =>
      set_target_temperature temperature ;;;
      d <- get_entity ;;
      if HVACMode_eqb (hvac_mode d) HEAT
      then _turn_on temperature
      else dret tt
  end.

(** [HuumDevice.async_update]. *)
Definition async_update : D unit :=
  r <- handler (status_from_status_or_stop Body W serve decode) ;;
  set_status r.

(** *** How the entity's coroutines run *)

Lemma handler_run {A : Type} (c : M Body W A) (h : H) :
  handler c h
  = (fst (c (client h)),
     {| entity := entity h; client := snd (c (client h)) |}).
Proof.
  unfold handler. destruct (c (client h)) as [r st']. reflexivity.
Qed.

Lemma _turn_on_run (t : Z) (h : H) :
  _turn_on t h
  = (match fst (turn_on Body W serve decode t false (client h)) with
     | Return _ => Return tt
     | Raise e => if caught e then Return tt else Raise e
     end,
     {| entity := entity h;
        client := snd (turn_on Body W serve decode t false (client h)) |}).
Proof.
  unfold _turn_on. rewrite handler_run.
  destruct (fst (turn_on Body W serve decode t false (client h))) as [r|e];
    [reflexivity|].
  destruct (caught e); reflexivity.
Qed.

Lemma home_eta (h : H) : {| entity := entity h; client := client h |} = h.
Proof. destruct h. reflexivity. Qed.

Lemma async_set_hvac_mode_HEAT_run (h : H) :
  async_set_hvac_mode HEAT h
  = _turn_on (Z.max 40 (target_temperature (entity h))) h.
Proof. reflexivity. Qed.

Lemma async_set_hvac_mode_OFF_run (h : H) :
  async_set_hvac_mode OFF h
  = (match fst (turn_off Body W serve decode (client h)) with
     | Return _ => Return tt
     | Raise e => Raise e
     end,
     {| entity := entity h;
        client := snd (turn_off Body W serve decode (client h)) |}).
Proof.
  unfold async_set_hvac_mode. cbn [HVACMode_eqb]. unfold dbind.
  rewrite handler_run.
  destruct (fst (turn_off Body W serve decode (client h))); reflexivity.
Qed.

(** The start requests among what [turn_on] without override sends carry
    its own temperature, which is then in range. *)
Lemma turn_on_start_requests (t : Z) (st : State Body W)
    (new : list Request) (rq : Request) :
  sent Body W (snd (turn_on Body W serve decode t false st))
  = sent Body W st ++ new ->
  In rq new ->
  req_url rq = urljoin API_BASE "start" ->
  40 <= t < 110 /\ exists s a, rq = start_request s a t.
Proof.
  intros Hsent Hin Hurl.
  change (turn_on Body W serve decode t false st)
    with (call Body W serve decode (op_turn_on t false) st) in Hsent.
  destruct (session (self st)) as [s|] eqn:Hs.
  2:{ rewrite call_sent_without_attrs in Hsent by auto.
      rewrite <- (app_nil_r (sent Body W st)) in Hsent at 1.
      apply app_inv_head in Hsent. subst new. destruct Hin. }
  destruct (auth (self st)) as [a|] eqn:Ha.
  2:{ rewrite call_sent_without_attrs in Hsent by auto.
      rewrite <- (app_nil_r (sent Body W st)) in Hsent at 1.
      apply app_inv_head in Hsent. subst new. destruct Hin. }
  rewrite (call_sent _ _ _ _ _ st s a Hs Ha) in Hsent.
  apply app_inv_head in Hsent. subst new.
  apply requests_of_In in Hin.
  destruct Hin as [-> | [-> | (t0 & o0 & Hop & Ht0 & -> & _)]];
    [discriminate Hurl | discriminate Hurl |].
  assert (t0 = t) as -> by (destruct Hop as [[= -> _] | [=]]; auto).
  split; [exact Ht0|]. exists s, a. reflexivity.
Qed.

(** *** Commands *)

(** X5: [_turn_on] never lets a [ValueError] or a [SafetyException] out and
    never touches the entity.  With a temperature outside 40..109 it returns
    with nothing sent and nothing changed; when the status check reports the
    door open it returns after that check, with no start request sent. *)
Theorem turn_on_refusals_are_swallowed (t : Z) (h : H) :
  entity (snd (_turn_on t h)) = entity h /\
  (forall e,
      fst (_turn_on t h) = Raise e ->
      class_of e <> cls_ValueError /\ class_of e <> cls_SafetyException) /\
  (t < 40 \/ 110 <= t -> _turn_on t h = (Return tt, h)) /\
  (forall r st1,
      40 <= t < 110 ->
      status Body W serve decode (client h) = (Return r, st1) ->
      door_closed r = false ->
      _turn_on t h = (Return tt, {| entity := entity h; client := st1 |})).
Proof.
  rewrite _turn_on_run. split; [reflexivity|]. split; [|split].
  - intros e. simpl.
    destruct (fst (turn_on Body W serve decode t false (client h)))
      as [r|e0]; [discriminate|].
    destruct (caught e0) eqn:C; [discriminate|].
    intros [= <-].
    destruct e0; simpl in C; try discriminate; split; discriminate.
  - intros Ht. unfold turn_on.
    rewrite (proj2 (in_range_false t) Ht). simpl. now rewrite home_eta.
  - intros r st1 Ht Hst Hd.
    destruct (turn_on_checked_run _ _ _ _ _ t _ _ Ht Hst)
      as (s & a & _ & _ & _ & E).
    rewrite Hd in E. rewrite E. reflexivity.
Qed.

(** X6: transport failures are not swallowed.  When the handler's
    [turn_on] raises because the session is missing, the connection failed
    or the service answered with an HTTP error, [_turn_on] raises the same
    exception, and so do the commands built on it. *)
Theorem transport_failures_escape (t : Z) (h : H) (e : exn) :
  fst (turn_on Body W serve decode t false (client h)) = Raise e ->
  class_of e = cls_AttributeError \/
  class_of e = cls_ClientConnectionError \/
  class_of e = cls_ClientResponseError ->
  fst (_turn_on t h) = Raise e /\
  (Z.max 40 (target_temperature (entity h)) = t ->
   fst (async_set_hvac_mode HEAT h) = Raise e).
Proof.
  intros He Hc.
  assert (E : fst (_turn_on t h) = Raise e).
  { rewrite _turn_on_run. simpl. rewrite He.
    destruct e; simpl in *;
      try reflexivity;
      destruct Hc as [Hc|[Hc|Hc]]; discriminate. }
  split; [exact E|].
  intros <-. rewrite async_set_hvac_mode_HEAT_run. exact E.
Qed.

(** X7: the heat command starts the sauna at the larger of 40 and the
    entity's target temperature.  With a target below 110, a client that has
    its session and credentials, and a status check that reports the door
    closed, it sends the status request and then the start request with that
    temperature, and returns unless the start exchange raises something the
    [except] clause does not catch.  Whatever happens, a start request that
    it sends carries that temperature, which is then below 110; a target of
    110 or more makes the command return with nothing sent and nothing
    changed. *)
Theorem heat_command_temperature (h : H) :
  let t := Z.max 40 (target_temperature (entity h)) in
  (forall s a r st1,
      session (self (client h)) = Some s ->
      auth (self (client h)) = Some a ->
      target_temperature (entity h) < 110 ->
      status Body W serve decode (client h) = (Return r, st1) ->
      door_closed r = true ->
      sent Body W (client (snd (async_set_hvac_mode HEAT h)))
      = sent Body W (client h)
          ++ [status_request s a; start_request s a t] /\
      client (snd (async_set_hvac_mode HEAT h))
      = after Body W serve st1 (start_request s a t) /\
      fst (async_set_hvac_mode HEAT h)
      = match outcome_result Body decode
                (answer Body W serve st1 (start_request s a t)) with
        | Return _ => Return tt
        | Raise e => if caught e then Return tt else Raise e
        end) /\
  (forall new rq,
      sent Body W (client (snd (async_set_hvac_mode HEAT h)))
      = sent Body W (client h) ++ new ->
      In rq new ->
      req_url rq = urljoin API_BASE "start" ->
      40 <= t < 110 /\ exists s a, rq = start_request s a t) /\
  (110 <= target_temperature (entity h) ->
   async_set_hvac_mode HEAT h = (Return tt, h)).
Proof.
  intros t. rewrite async_set_hvac_mode_HEAT_run. fold t.
  split; [|split].
  - intros s a r st1 Hs Ha Hlow Hst Hd.
    assert (Ht : 40 <= t < 110) by (subst t; lia).
    destruct (turn_on_checked_run Body W serve decode (client h) t r st1
                Ht Hst) as (s' & a' & Hs' & Ha' & Est & E).
    assert (s' = s) as -> by congruence.
    assert (a' = a) as -> by congruence.
    rewrite Hd in E. rewrite _turn_on_run, E. cbn [fst snd client].
    split; [|split; reflexivity].
    rewrite sent_after. subst st1. rewrite sent_after, <- app_assoc.
    reflexivity.
  - intros new rq Hsent Hin Hurl.
    rewrite _turn_on_run in Hsent. simpl in Hsent.
    exact (turn_on_start_requests t (client h) new rq Hsent Hin Hurl).
  - intros Hhigh. rewrite _turn_on_run. unfold turn_on.
    assert (Ht : t < 40 \/ 110 <= t) by (right; subst t; lia).
    rewrite (proj2 (in_range_false t) Ht). simpl. now rewrite home_eta.
Qed.

(** X8: the commands drop the responses they get.  [async_set_hvac_mode]
    leaves the entity as it is and [async_set_temperature] changes nothing
    but [_target_temperature], so the mode that the entity reports changes
    only at an [async_update]; [async_update] for its part leaves
    [_target_temperature] alone.  None of the three changes the client
    object. *)
Theorem commands_keep_the_last_status (h : H) :
  (forall m,
      entity (snd (async_set_hvac_mode m h)) = entity h /\
      self (client (snd (async_set_hvac_mode m h))) = self (client h)) /\
  (forall kw,
      _status (entity (snd (async_set_temperature kw h)))
      = _status (entity h) /\
      _title (entity (snd (async_set_temperature kw h)))
      = _title (entity h) /\
      hvac_mode (entity (snd (async_set_temperature kw h)))
      = hvac_mode (entity h) /\
      self (client (snd (async_set_temperature kw h))) = self (client h)) /\
  (_target_temperature (entity (snd (async_update h)))
   = _target_temperature (entity h) /\
   _title (entity (snd (async_update h))) = _title (entity h) /\
   self (client (snd (async_update h))) = self (client h)).
Proof.
  assert (Kon : forall t h0,
             self (client (snd (_turn_on t h0))) = self (client h0)).
  { intros t h0. rewrite _turn_on_run. simpl.
    apply (stateless_call Body W serve decode (op_turn_on t false)). }
  split; [|split].
  - intros m. destruct m; try (split; reflexivity).
    + rewrite async_set_hvac_mode_OFF_run. split; [reflexivity|].
      apply (stateless_call Body W serve decode op_turn_off).
    + rewrite async_set_hvac_mode_HEAT_run. split; [|apply Kon].
      rewrite _turn_on_run. reflexivity.
  - intros [t|]; [|repeat split; reflexivity].
    unfold async_set_temperature, dbind, set_target_temperature, get_entity.
    simpl.
    destruct (HVACMode_eqb (hvac_mode _) HEAT).
    + rewrite _turn_on_run. simpl. repeat split.
      apply (stateless_call Body W serve decode (op_turn_on t false)).
    + repeat split; reflexivity.
  - unfold async_update, dbind. rewrite handler_run.
    pose proof (stateless_call Body W serve decode
                  op_status_from_status_or_stop (client h)) as (Es & _).
    simpl in Es.
    destruct (fst (status_from_status_or_stop Body W serve decode (client h)));
      simpl; repeat split; assumption.
Qed.

(** X9: [async_update] stores the response of
    [status_from_status_or_stop] when there is one; when that call raises,
    the exception goes to the caller and the entity keeps its last status. *)
Theorem update_keeps_last_status_on_failure (h : H) :
  (forall r,
      fst (status_from_status_or_stop Body W serve decode (client h))
      = Return r ->
      fst (async_update h) = Return tt /\
      _status (entity (snd (async_update h))) = r) /\
  (forall e,
      fst (status_from_status_or_stop Body W serve decode (client h))
      = Raise e ->
      fst (async_update h) = Raise e /\
      entity (snd (async_update h)) = entity h) /\
  client (snd (async_update h))
  = snd (status_from_status_or_stop Body W serve decode (client h)).
Proof.
  unfold async_update, dbind. rewrite handler_run.
  destruct (fst (status_from_status_or_stop Body W serve decode (client h)))
    as [r|e]; simpl.
  - split; [intros r' [= <-]; split; reflexivity|].
    split; [intros e; discriminate | reflexivity].
  - split; [intros r; discriminate|].
    split; [intros e' [= <-]; split; reflexivity | reflexivity].
Qed.

(** X10: [async_set_temperature] without a temperature does nothing.  With
    one it stores it, in range or not; while the entity does not report
    heating it sends nothing; and when the last status carries no target
    temperature (or 0), the stored value is what [target_temperature] then
    returns. *)
Theorem set_temperature_stores_the_target (h : H) :
  async_set_temperature None h = (Return tt, h) /\
  (forall t,
      _target_temperature (entity (snd (async_set_temperature (Some t) h)))
      = t) /\
  (forall t,
      hvac_mode (entity h) <> HEAT ->
      fst (async_set_temperature (Some t) h) = Return tt /\
      client (snd (async_set_temperature (Some t) h)) = client h) /\
  (forall t,
      schemas.target_temperature (_status (entity h)) = None \/
      schemas.target_temperature (_status (entity h)) = Some 0 ->
      target_temperature (entity (snd (async_set_temperature (Some t) h)))
      = t).
Proof.
  split; [reflexivity|].
  assert (Ent : forall t,
             entity (snd (async_set_temperature (Some t) h))
             = {| _status := _status (entity h);
                  _title := _title (entity h);
                  _target_temperature := t |}).
  { intros t.
    unfold async_set_temperature, dbind, set_target_temperature, get_entity.
    simpl.
    destruct (HVACMode_eqb (hvac_mode _) HEAT); [|reflexivity].
    rewrite _turn_on_run. reflexivity. }
  split; [|split].
  - intros t. rewrite Ent. reflexivity.
  - intros t Hm.
    unfold async_set_temperature, dbind, set_target_temperature, get_entity.
    simpl.
    change (hvac_mode {| _status := _status (entity h);
                         _title := _title (entity h);
                         _target_temperature := t |})
      with (hvac_mode (entity h)).
    destruct (hvac_mode (entity h)); try (split; reflexivity).
    contradiction.
  - intros t Hnone. rewrite Ent. unfold target_temperature. simpl.
    destruct Hnone as [-> | ->]; reflexivity.
Qed.

(** X11: the off command is one [turn_off] of the handler, outside any
    [try]: whatever [turn_off] raises, a rejected body included, reaches the
    caller, and what it returns is dropped.  A mode other than HEAT and OFF
    is ignored: nothing is sent, nothing changes. *)
Theorem off_command_is_unguarded (h : H) :
  (forall e,
      fst (turn_off Body W serve decode (client h)) = Raise e ->
      fst (async_set_hvac_mode OFF h) = Raise e) /\
  (forall r,
      fst (turn_off Body W serve decode (client h)) = Return r ->
      fst (async_set_hvac_mode OFF h) = Return tt) /\
  client (snd (async_set_hvac_mode OFF h))
  = snd (turn_off Body W serve decode (client h)) /\
  (forall m, m <> HEAT -> m <> OFF ->
             async_set_hvac_mode m h = (Return tt, h)).
Proof.
  rewrite async_set_hvac_mode_OFF_run. simpl.
  split; [intros e ->; reflexivity|].
  split; [intros r ->; reflexivity|].
  split; [reflexivity|].
  intros m N1 N2. destruct m; try reflexivity; contradiction.
Qed.

End Device.

(** *** Concrete runs of the entity *)

Lemma turn_on_refusals_are_swallowed_witness :
  let h := scripted_home response_idle a_client
             [Replied 200 response_door_open; Replied 200 response_heating] in
  _turn_on _ _ scripted_serve Some true 120 h = (Return tt, h) /\
  fst (_turn_on _ _ scripted_serve Some true 80 h) = Return tt /\
  sent _ _ (client (snd (_turn_on _ _ scripted_serve Some true 80 h)))
  = [status_request a_session some_auth].
Proof.
  intros h.
  destruct (turn_on_refusals_are_swallowed _ _ scripted_serve Some true 120 h)
    as (_ & _ & Hout & _).
  destruct (turn_on_refusals_are_swallowed _ _ scripted_serve Some true 80 h)
    as (_ & _ & _ & Hdoor).
  split; [apply Hout; right; lia|].
  assert (Ht : 40 <= 80 < 110) by lia.
  rewrite (Hdoor response_door_open
             (after _ _ scripted_serve (client h)
                (status_request a_session some_auth))
             Ht eq_refl eq_refl).
  split; reflexivity.
Defined.

Lemma transport_failures_escape_witness :
  let h := scripted_home response_idle a_client [ConnectionFailed] in
  fst (async_set_hvac_mode _ _ scripted_serve Some false HEAT h)
  = Raise ClientConnectionError.
Proof.
  intros h.
  apply (transport_failures_escape _ _ scripted_serve Some false 40 h
           ClientConnectionError).
  - reflexivity.
  - right. left. reflexivity.
  - reflexivity.
Defined.

Lemma heat_command_temperature_witness :
  let h := scripted_home response_idle a_client
             [Replied 200 response_idle; Replied 200 response_heating] in
  let hot := {| entity := {| _status := response_idle; _title := "huum_sauna";
                             _target_temperature := 110 |};
                client := scripted_state a_client
                            [Replied 200 response_idle] |} in
  sent _ _ (client (snd (async_set_hvac_mode _ _ scripted_serve Some true
                           HEAT h)))
  = [status_request a_session some_auth;
     start_request a_session some_auth 40] /\
  fst (async_set_hvac_mode _ _ scripted_serve Some true HEAT h)
  = Return tt /\
  async_set_hvac_mode _ _ scripted_serve Some true HEAT hot
  = (Return tt, hot).
Proof.
  intros h hot.
  destruct (heat_command_temperature _ _ scripted_serve Some true h)
    as (Hrun & Hstart & _).
  assert (Hlow : target_temperature (entity h) < 110)
    by (unfold h, target_temperature; simpl; lia).
  destruct (Hrun a_session some_auth response_idle
              (after _ _ scripted_serve (client h)
                 (status_request a_session some_auth))
              eq_refl eq_refl Hlow eq_refl eq_refl) as (Hsent & _ & Hres).
  destruct (Hstart [status_request a_session some_auth;
                    start_request a_session some_auth 40]
              (start_request a_session some_auth 40)
              Hsent (or_intror (or_introl eq_refl)) eq_refl) as [_ _].
  split; [exact Hsent|]. split; [rewrite Hres; reflexivity|].
  apply (heat_command_temperature _ _ scripted_serve Some true hot).
  unfold hot, target_temperature. simpl. lia.
Defined.

Lemma commands_keep_the_last_status_witness :
  let h := scripted_home response_idle a_client
             [Replied 200 response_idle; Replied 200 response_heating] in
  hvac_mode (entity (snd (async_set_hvac_mode _ _ scripted_serve Some true
                            HEAT h))) = OFF /\
  _status (entity (snd (async_set_temperature _ _ scripted_serve Some true
                          (Some 90) h))) = response_idle.
Proof.
  intros h.
  destruct (commands_keep_the_last_status _ _ scripted_serve Some true h)
    as (Hmode & Htemp & _).
  split.
  - destruct (Hmode HEAT) as [-> _]. reflexivity.
  - destruct (Htemp (Some 90)) as [-> _]. reflexivity.
Defined.

Lemma update_keeps_last_status_on_failure_witness :
  let h := scripted_home response_heating a_client
             [Replied 200 response_idle; Replied 200 response_stopped] in
  let down := scripted_home response_heating a_client [Replied 503 response_idle] in
  _status (entity (snd (async_update _ _ scripted_serve Some h)))
  = response_stopped /\
  fst (async_update _ _ scripted_serve Some down)
  = Raise (ClientResponseError 503) /\
  entity (snd (async_update _ _ scripted_serve Some down)) = entity down.
Proof.
  intros h down.
  destruct (update_keeps_last_status_on_failure _ _ scripted_serve Some h)
    as (Hok & _ & _).
  destruct (update_keeps_last_status_on_failure _ _ scripted_serve Some down)
    as (_ & Hfail & _).
  split.
  - apply (Hok response_stopped). reflexivity.
  - apply (Hfail (ClientResponseError 503)). reflexivity.
Defined.

Lemma set_temperature_stores_the_target_witness :
  let h := scripted_home response_idle a_client [Replied 200 response_idle] in
  target_temperature
    (entity (snd (async_set_temperature _ _ scripted_serve Some true
                    (Some 200) h))) = 200 /\
  client (snd (async_set_temperature _ _ scripted_serve Some true
                 (Some 200) h)) = client h.
Proof.
  intros h.
  destruct (set_temperature_stores_the_target _ _ scripted_serve Some true h)
    as (_ & _ & Hidle & Hget).
  split.
  - apply Hget. left. reflexivity.
  - apply Hidle. discriminate.
Defined.

Lemma off_command_is_unguarded_witness :
  let h := scripted_home response_heating a_client_without_session [] in
  fst (async_set_hvac_mode _ _ scripted_serve Some true OFF h)
  = Raise (AttributeError "session") /\
  async_set_hvac_mode _ _ scripted_serve Some true COOL h = (Return tt, h).
Proof.
  intros h.
  destruct (off_command_is_unguarded _ _ scripted_serve Some true h)
    as (Hraise & _ & _ & Hother).
  split.
  - apply Hraise. reflexivity.
  - apply Hother; discriminate.
Defined.

End climate.

(** ** __init__.py

    Setting up and unloading a config entry.  The host's own functions
    ([async_get_clientsession], [async_forward_entry_setup],
    [async_unload_platforms]) and the constants of the absent [const.py] are
    parameters. *)

Module integration.
Import settings schemas huum.

(** What the two coroutines can raise: an exception of the client as it
    is, a missing dictionary key, the host's [ConfigEntryNotReady] with its
    cause, or whatever a host function raises. *)
Inductive host_exn : Type :=
| Propagated (e : exn)
| KeyError (key : string)
| ConfigEntryNotReady (cause : exn)
| HostError (what : string).

Inductive HResult (A : Type) : Type :=
| HReturn (a : A)
| HRaise (e : host_exn).
Arguments HReturn {A} a.
Arguments HRaise {A} e.

Record ConfigEntry : Type := {
  entry_id : string;
  data : list (string * string);
  title : string
}.

(** The dictionary stored per entry, with its keys "handler" and "status". *)
Record Stored : Type := {
  stored_handler : Huum;
  stored_status : HuumStatusResponse
}.

(** A [dict] with string keys, in insertion order: [d.get(k)], [d[k] = v]
    and the removal that [d.pop(k)] performs. *)
Fixpoint dict_lookup {V : Type} (d : list (string * V)) (k : string)
  : option V :=
  match d with
  | [] => None
  | (k', v) :: d' => if (k' =? k)%string then Some v else dict_lookup d' k
  end.

Fixpoint dict_set {V : Type} (d : list (string * V)) (k : string) (v : V)
  : list (string * V) :=
  match d with
  | [] => [(k, v)]
  | (k', v') :: d' =>
      if (k' =? k)%string then (k, v) :: d' else (k', v') :: dict_set d' k v
  end.

Definition dict_remove {V : Type} (d : list (string * V)) (k : string)
  : list (string * V) :=
  filter (fun kv => negb (fst kv =? k)%string) d.

(** The host: [hass.data.get(DOMAIN)], the state the client runs in, and
    the host's own state. *)
Record Hass (Body W X : Type) : Type := {
  domain_data : option (list (string * Stored));
  runtime : State Body W;
  host : X
}.
Arguments Build_Hass {Body W X} domain_data runtime host.
Arguments domain_data {Body W X} h.
Arguments runtime {Body W X} h.
Arguments host {Body W X} h.

(** Sample values for concrete runs: an entry with credentials, and a host
    without entries whose client runs against a scripted remote service. *)
Definition an_entry : ConfigEntry :=
  {| entry_id := "entry-1";
     data := [("username"%string, "foo"%string);
              ("password"%string, "bar"%string)];
     title := "Sauna" |}.

Definition an_entry_without_password : ConfigEntry :=
  {| entry_id := "entry-2";
     data := [("username"%string, "foo"%string);
              ("password"%string, ""%string)];
     title := "Sauna" |}.

Definition scripted_hass (script : list (Outcome HuumStatusResponse))
  : Hass HuumStatusResponse (list (Outcome HuumStatusResponse)) unit :=
  {| domain_data := None;
     runtime := scripted_state a_client_without_session script;
     host := tt |}.

Section Entry.

Variable Body : Type.
Variable W : Type.
Variable X : Type.
Variable serve : W -> Request -> W * Outcome Body.
Variable decode : Body -> option HuumStatusResponse.

Abbreviation HS := (Hass Body W X).

Definition HM (A : Type) : Type := HS -> HResult A * HS.

(** The constants of [const.py] and the module-level [settings]. *)
Variable DOMAIN : string.
Variable PLATFORMS : list string.
Variable CONF_USERNAME : string.
Variable CONF_PASSWORD : string.
Variable module_settings : Settings.

(** The host's functions. *)
Variable async_get_clientsession : X -> ClientSession.
Variable async_forward_entry_setup : ConfigEntry -> string -> HM unit.
Variable async_unload_platforms : ConfigEntry -> list string -> HM bool.

Definition hret {A : Type} (a : A) : HM A := fun h => (HReturn a, h).

Definition hraise {A : Type} (e : host_exn) : HM A := fun h => (HRaise e, h).

Definition hbind {A B : Type} (c : HM A) (k : A -> HM B) : HM B :=
  fun h =>
    match c h with
    | (HReturn a, h') => k a h'
    | (HRaise e, h') => (HRaise e, h')
    end.

Notation "x <- c ;; k" := (hbind c (fun x => k))
  (at level 100, c at next level, right associativity).
Notation "c ;;; k" := (hbind c (fun _ => k))
  (at level 100, right associativity).

(** A computation of the client, run in the host; its outcome is kept as
    it is for the caller to inspect. *)
Definition run_client {A : Type} (c : M Body W A) : HM (Result A) :=
  fun h =>
    let (r, st') := c (runtime h) in
    (HReturn r,
     {| domain_data := domain_data h; runtime := st'; host := host h |}).

(** The same, outside any [try]: an exception passes through. *)
Definition await_client {A : Type} (c : M Body W A) : HM A :=
  r <- run_client c ;;
  match r with
  | Return a => hret a
  | Raise e => hraise (Propagated e)
  end.

(** [d[k]]. *)
Definition getitem {V : Type} (d : list (string * V)) (k : string) : HM V :=
  match dict_lookup d k with
  | Some v => hret v
  | None => hraise (KeyError k)
  end.

(** [hass.data.setdefault(DOMAIN, {})[k] = v]. *)
Definition store (k : string) (v : Stored) : HM unit :=
  fun h =>
    let d := match domain_data h with
             | Some d => d
             | None => []
             end in
    (HReturn tt,
     {| domain_data := Some (dict_set d k v);
        runtime := runtime h; host := host h |}).

(** [for platform in platforms: await async_forward_entry_setup(...)]. *)
Fixpoint forward_all (entry : ConfigEntry) (platforms : list string)
  : HM unit :=
  match platforms with
  | [] => hret tt
  | platform :: rest =>
      async_forward_entry_setup entry platform ;;;
      forward_all entry rest
  end.

(** [async_setup_entry]. *)
Definition async_setup_entry (entry : ConfigEntry) : HM bool :=
  username <- getitem (data entry) CONF_USERNAME ;;
  password <- getitem (data entry) CONF_PASSWORD ;;
  session <- (fun h => (HReturn (async_get_clientsession (host h)), h)) ;;
  await_client
    (Huum_new Body W module_settings
       (passed (Some username)) (passed (Some password))
       (passed (Some session))) ;;;
  huum_handler <- (fun h => (HReturn (self (runtime h)), h)) ;;
  probe <- run_client (status_from_status_or_stop Body W serve decode) ;;
  match probe with
  | Raise e => hraise (ConfigEntryNotReady e)
  | Return entry_status =>
      store (entry_id entry)
        {| stored_handler := huum_handler; stored_status := entry_status |} ;;;
      forward_all entry PLATFORMS ;;;
      hret true
  end.

(** [async_unload_entry]. *)
Definition async_unload_entry (entry : ConfigEntry) : HM bool :=
  unload_ok <- async_unload_platforms entry PLATFORMS ;;
  (if unload_ok
   then
     fun h =>
       match domain_data h with
       | None => (HRaise (KeyError DOMAIN), h)
       | Some d =>
           match dict_lookup d (entry_id entry) with
           | None => (HRaise (KeyError (entry_id entry)), h)
           | Some _ =>
               (HReturn tt,
                {| domain_data := Some (dict_remove d (entry_id entry));
                   runtime := runtime h; host := host h |})
           end
       end
   else hret tt) ;;;
  hret unload_ok.

(** *** Dictionaries *)

Lemma dict_lookup_set_same {V : Type} (d : list (string * V)) k v :
  dict_lookup (dict_set d k v) k = Some v.
Proof.
  induction d as [|[k' v'] d IH]; simpl.
  - now rewrite String.eqb_refl.
  - destruct (String.eqb_spec k' k) as [->|N]; simpl.
    + now rewrite String.eqb_refl.
    + destruct (String.eqb_spec k' k); [contradiction | exact IH].
Qed.

Lemma dict_lookup_set_other {V : Type} (d : list (string * V)) k v k0 :
  k0 <> k -> dict_lookup (dict_set d k v) k0 = dict_lookup d k0.
Proof.
  intros N. induction d as [|[k' v'] d IH]; simpl.
  - destruct (String.eqb_spec k k0); [congruence | reflexivity].
  - destruct (String.eqb_spec k' k) as [->|N']; simpl.
    + destruct (String.eqb_spec k k0); [congruence | reflexivity].
    + destruct (String.eqb_spec k' k0); [reflexivity | exact IH].
Qed.

Lemma dict_lookup_remove_same {V : Type} (d : list (string * V)) k :
  dict_lookup (dict_remove d k) k = None.
Proof.
  induction d as [|[k' v'] d IH]; simpl; [reflexivity|].
  destruct (String.eqb_spec k' k) as [->|N]; simpl; [exact IH|].
  destruct (String.eqb_spec k' k); [contradiction | exact IH].
Qed.

Lemma dict_lookup_remove_other {V : Type} (d : list (string * V)) k k0 :
  k0 <> k -> dict_lookup (dict_remove d k) k0 = dict_lookup d k0.
Proof.
  intros N. induction d as [|[k' v'] d IH]; simpl; [reflexivity|].
  destruct (String.eqb_spec k' k) as [->|N']; simpl.
  - destruct (String.eqb_spec k k0); [congruence | exact IH].
  - destruct (String.eqb_spec k' k0); [reflexivity | exact IH].
Qed.

(** *** Setting up an entry *)

Lemma Huum_new_rejects cfg username password sess (st : State Body W) :
  truthy (arg_or (huum_username cfg) username) = None \/
  truthy (arg_or (huum_password cfg) password) = None ->
  fst (Huum_new Body W cfg username password sess st)
  = Raise (ValueError
      "No username or password provided either by the environment nor explicitly") /\
  net (snd (Huum_new Body W cfg username password sess st)) = net st /\
  log (snd (Huum_new Body W cfg username password sess st)) = log st.
Proof.
  intros T. unfold Huum_new, bind, new_object, __init__, bind.
  destruct (arg_or None sess); simpl;
    destruct T as [T|T]; rewrite T;
    try destruct (truthy (arg_or (huum_username cfg) username));
    repeat split; reflexivity.
Qed.

(** The run of [async_setup_entry] once both credentials are found: the
    client is constructed, then probed. *)
Lemma async_setup_entry_run entry h u p :
  dict_lookup (data entry) CONF_USERNAME = Some u ->
  dict_lookup (data entry) CONF_PASSWORD = Some p ->
  async_setup_entry entry h
  = match Huum_new Body W module_settings (passed (Some u))
            (passed (Some p))
            (passed (Some (async_get_clientsession (host h)))) (runtime h)
    with
    | (Raise e, st0) =>
        (HRaise (Propagated e),
         {| domain_data := domain_data h; runtime := st0; host := host h |})
    | (Return _, st0) =>
        match status_from_status_or_stop Body W serve decode st0 with
        | (Raise e, st1) =>
            (HRaise (ConfigEntryNotReady e),
             {| domain_data := domain_data h; runtime := st1;
                host := host h |})
        | (Return r, st1) =>
            (forward_all entry PLATFORMS ;;; hret true)
              {| domain_data :=
                   Some (dict_set
                           match domain_data h with
                           | Some d => d
                           | None => []
                           end
                           (entry_id entry)
                           {| stored_handler := self st0;
                              stored_status := r |});
                 runtime := st1; host := host h |}
        end
    end.
Proof.
  intros Hu Hp.
  unfold async_setup_entry, getitem. rewrite Hu, Hp.
  unfold await_client, run_client, store, hbind, hret, hraise.
  cbv beta iota.
  destruct (Huum_new Body W module_settings (passed (Some u))
              (passed (Some p))
              (passed (Some (async_get_clientsession (host h))))
              (runtime h)) as [[[]|e] st0];
    cbn [runtime host domain_data]; [|reflexivity].
  destruct (status_from_status_or_stop Body W serve decode st0)
    as [[r|e] st1]; cbn [runtime host domain_data]; reflexivity.
Qed.

(** X13: for an entry whose credentials the constructor accepts
    (non-empty, no colon in the user name): when the first reading of the
    device fails, for whatever reason, [async_setup_entry] raises
    [ConfigEntryNotReady] with that exception as its cause; nothing is stored
    for the entry and no platform is set up. *)
Theorem setup_not_ready (entry : ConfigEntry) (h : HS)
    (u p : string) (e : exn) :
  dict_lookup (data entry) CONF_USERNAME = Some u ->
  dict_lookup (data entry) CONF_PASSWORD = Some p ->
  u <> ""%string -> p <> ""%string ->
  has_colon u = false ->
  let st0 := snd (Huum_new Body W module_settings (passed (Some u))
                    (passed (Some p))
                    (passed (Some (async_get_clientsession (host h))))
                    (runtime h)) in
  fst (status_from_status_or_stop Body W serve decode st0) = Raise e ->
  fst (async_setup_entry entry h) = HRaise (ConfigEntryNotReady e) /\
  domain_data (snd (async_setup_entry entry h)) = domain_data h /\
  host (snd (async_setup_entry entry h)) = host h.
Proof.
  intros Hu Hp Nu Np Hc st0 He. subst st0.
  rewrite (async_setup_entry_run entry h u p Hu Hp).
  rewrite (Huum_new_run Body W module_settings (passed (Some u))
             (passed (Some p)) _ (runtime h) u p eq_refl eq_refl Nu Np Hc)
    in *.
  simpl in He.
  destruct (status_from_status_or_stop Body W serve decode _)
    as [[r|e'] st1]; simpl in He; [discriminate|].
  injection He as ->. repeat split.
Qed.

(** X14: credentials are checked before the [try].  An entry without the
    user name or the password key raises [KeyError] with nothing changed; an
    empty user name or password raises the constructor's [ValueError]
    itself, not [ConfigEntryNotReady], with nothing sent and nothing
    stored. *)
Theorem setup_bad_credentials (entry : ConfigEntry) (h : HS) :
  (dict_lookup (data entry) CONF_USERNAME = None ->
   async_setup_entry entry h = (HRaise (KeyError CONF_USERNAME), h)) /\
  (forall u,
      dict_lookup (data entry) CONF_USERNAME = Some u ->
      dict_lookup (data entry) CONF_PASSWORD = None ->
      async_setup_entry entry h = (HRaise (KeyError CONF_PASSWORD), h)) /\
  (forall u p,
      dict_lookup (data entry) CONF_USERNAME = Some u ->
      dict_lookup (data entry) CONF_PASSWORD = Some p ->
      u = ""%string \/ p = ""%string ->
      fst (async_setup_entry entry h)
      = HRaise (Propagated (ValueError
          "No username or password provided either by the environment nor explicitly")) /\
      domain_data (snd (async_setup_entry entry h)) = domain_data h /\
      host (snd (async_setup_entry entry h)) = host h /\
      log (runtime (snd (async_setup_entry entry h))) = log (runtime h) /\
      net (runtime (snd (async_setup_entry entry h))) = net (runtime h)).
Proof.
  split; [|split].
  - intros Hu. unfold async_setup_entry, getitem. rewrite Hu. reflexivity.
  - intros u Hu Hp. unfold async_setup_entry, getitem. rewrite Hu, Hp.
    reflexivity.
  - intros u p Hu Hp Hempty.
    rewrite (async_setup_entry_run entry h u p Hu Hp).
    assert (T : truthy (Some u) = None \/ truthy (Some p) = None).
    { destruct Hempty as [-> | ->]; simpl; auto. }
    destruct (Huum_new_rejects module_settings (passed (Some u))
                (passed (Some p))
                (passed (Some (async_get_clientsession (host h))))
                (runtime h) T) as (Hr & Hn & Hl).
    destruct (Huum_new Body W module_settings (passed (Some u))
                (passed (Some p))
                (passed (Some (async_get_clientsession (host h))))
                (runtime h)) as [[[]|e] st0]; simpl in *; [discriminate|].
    injection Hr as ->. repeat split; assumption.
Qed.

(** X15: for an entry whose credentials the constructor accepts
    (non-empty, no colon in the user name): when the first reading succeeds,
    the platforms are set up in a host where the entry's id leads to the handler just constructed, with
    the entry's credentials and the host's session, and to that first
    response; what was stored under other ids is as before.  The
    coroutine's outcome is then that of the platform setups. *)
Theorem setup_stores_the_first_status (entry : ConfigEntry) (h : HS)
    (u p : string) (r : HuumStatusResponse) :
  dict_lookup (data entry) CONF_USERNAME = Some u ->
  dict_lookup (data entry) CONF_PASSWORD = Some p ->
  u <> ""%string -> p <> ""%string ->
  has_colon u = false ->
  let st0 := snd (Huum_new Body W module_settings (passed (Some u))
                    (passed (Some p))
                    (passed (Some (async_get_clientsession (host h))))
                    (runtime h)) in
  fst (status_from_status_or_stop Body W serve decode st0) = Return r ->
  exists d,
    async_setup_entry entry h
    = (forward_all entry PLATFORMS ;;; hret true)
        {| domain_data := Some d;
           runtime := snd (status_from_status_or_stop Body W serve decode st0);
           host := host h |} /\
    dict_lookup d (entry_id entry)
    = Some {| stored_handler :=
                {| session := Some (async_get_clientsession (host h));
                   auth := Some {| login := u; password := p |} |};
              stored_status := r |} /\
    (forall k, k <> entry_id entry ->
       dict_lookup d k
       = match domain_data h with
         | Some d0 => dict_lookup d0 k
         | None => None
         end).
Proof.
  intros Hu Hp Nu Np Hc st0 Hr. subst st0.
  rewrite (async_setup_entry_run entry h u p Hu Hp).
  rewrite (Huum_new_run Body W module_settings (passed (Some u))
             (passed (Some p)) _ (runtime h) u p eq_refl eq_refl Nu Np Hc)
    in *.
  simpl in Hr. cbv iota beta.
  destruct (status_from_status_or_stop Body W serve decode _)
    as [[r'|e] st1]; simpl in Hr; [|discriminate].
  injection Hr as ->.
  eexists. split; [reflexivity|]. split.
  - apply dict_lookup_set_same.
  - intros k N. rewrite dict_lookup_set_other by assumption.
    destruct (domain_data h); reflexivity.
Qed.

(** X17: a user name with a colon stops [async_setup_entry] at the
    construction of the client, before the [try]: it raises the
    constructor's [ValueError] itself, not [ConfigEntryNotReady], with
    nothing sent, nothing stored and no platform set up. *)
Theorem setup_colon_in_username (entry : ConfigEntry) (h : HS)
    (u p : string) :
  dict_lookup (data entry) CONF_USERNAME = Some u ->
  dict_lookup (data entry) CONF_PASSWORD = Some p ->
  u <> ""%string -> p <> ""%string ->
  has_colon u = true ->
  fst (async_setup_entry entry h)
  = HRaise (Propagated (ValueError
      ("A " ++ double_quote ++ ":" ++ double_quote
         ++ " is not allowed in login (RFC 1945#section-11.1)")%string)) /\
  domain_data (snd (async_setup_entry entry h)) = domain_data h /\
  host (snd (async_setup_entry entry h)) = host h /\
  log (runtime (snd (async_setup_entry entry h))) = log (runtime h) /\
  net (runtime (snd (async_setup_entry entry h))) = net (runtime h).
Proof.
  intros Hu Hp Nu Np Hc.
  rewrite (async_setup_entry_run entry h u p Hu Hp).
  rewrite (Huum_new_colon Body W module_settings (passed (Some u))
             (passed (Some p)) _ (runtime h) u p eq_refl eq_refl Nu Np Hc).
  repeat split.
Qed.

(** *** Unloading an entry *)

(** X16: [async_unload_entry] returns what the host's
    [async_unload_platforms] returns.  When that is false, nothing else
    happens; when it is true and the entry is stored, the entry is removed
    and what is stored under other ids stays; when it is true and nothing is
    stored for the entry, [KeyError] is raised. *)
Theorem unload_removes_the_entry (entry : ConfigEntry) (h h1 : HS)
    (unload_ok : bool) :
  async_unload_platforms entry PLATFORMS h = (HReturn unload_ok, h1) ->
  (unload_ok = false -> async_unload_entry entry h = (HReturn false, h1)) /\
  (forall d v,
      unload_ok = true ->
      domain_data h1 = Some d ->
      dict_lookup d (entry_id entry) = Some v ->
      exists d',
        async_unload_entry entry h
        = (HReturn true,
           {| domain_data := Some d'; runtime := runtime h1;
              host := host h1 |}) /\
        dict_lookup d' (entry_id entry) = None /\
        (forall k, k <> entry_id entry ->
                   dict_lookup d' k = dict_lookup d k)) /\
  (unload_ok = true ->
   domain_data h1 = None \/
   (exists d, domain_data h1 = Some d /\
              dict_lookup d (entry_id entry) = None) ->
   exists key, async_unload_entry entry h = (HRaise (KeyError key), h1)).
Proof.
  intros Hhost. unfold async_unload_entry, hbind, hret.
  rewrite Hhost. split; [|split].
  - intros ->. reflexivity.
  - intros d v -> Hd Hv. rewrite Hd, Hv.
    exists (dict_remove d (entry_id entry)).
    split; [reflexivity|]. split.
    + apply dict_lookup_remove_same.
    + intros k N. now apply dict_lookup_remove_other.
  - intros -> [Hd | (d & Hd & Hv)]; rewrite Hd.
    + exists DOMAIN. reflexivity.
    + rewrite Hv. exists (entry_id entry). reflexivity.
Qed.

End Entry.

(** *** Concrete runs of the set-up *)

(** The coroutines with the constants the integration uses, a host whose
    session is [a_session] and whose platform functions succeed. *)
Abbreviation demo_setup :=
  (async_setup_entry HuumStatusResponse (list (Outcome HuumStatusResponse))
     unit scripted_serve Some ["climate"%string] "username" "password"
     {| huum_username := None; huum_password := None |}
     (fun _ => a_session) (fun _ _ h => (HReturn tt, h))).

Abbreviation demo_unload_platforms :=
  (fun (_ : ConfigEntry) (_ : list string)
       (h : Hass HuumStatusResponse (list (Outcome HuumStatusResponse)) unit)
   => (HReturn true, h)).

Abbreviation demo_unload :=
  (async_unload_entry HuumStatusResponse
     (list (Outcome HuumStatusResponse)) unit "huum" ["climate"%string]
     demo_unload_platforms).

Lemma setup_not_ready_witness :
  fst (demo_setup an_entry (scripted_hass [Replied 401 response_idle]))
  = HRaise (ConfigEntryNotReady (ClientResponseError 401)) /\
  domain_data
    (snd (demo_setup an_entry (scripted_hass [Replied 401 response_idle])))
  = None.
Proof.
  destruct (setup_not_ready _ _ unit scripted_serve Some
              ["climate"%string] "username" "password"
              {| huum_username := None; huum_password := None |}
              (fun _ => a_session) (fun _ _ h => (HReturn tt, h))
              an_entry (scripted_hass [Replied 401 response_idle])
              "foo"%string "bar"%string (ClientResponseError 401))
    as (E & D & _).
  - reflexivity.
  - reflexivity.
  - discriminate.
  - discriminate.
  - reflexivity.
  - reflexivity.
  - split; [exact E | exact D].
Defined.

Lemma setup_bad_credentials_witness :
  fst (demo_setup an_entry_without_password
         (scripted_hass [Replied 200 response_heating]))
  = HRaise (Propagated (ValueError
      "No username or password provided either by the environment nor explicitly")) /\
  demo_setup {| entry_id := "entry-3"; data := []; title := "Sauna" |}
    (scripted_hass [])
  = (HRaise (KeyError "username"), scripted_hass []).
Proof.
  split.
  - destruct (setup_bad_credentials _ _ unit scripted_serve Some
                ["climate"%string] "username" "password"
                {| huum_username := None; huum_password := None |}
                (fun _ => a_session) (fun _ _ h => (HReturn tt, h))
                an_entry_without_password
                (scripted_hass [Replied 200 response_heating]))
      as (_ & _ & H).
    apply (H "foo"%string ""%string eq_refl eq_refl). right. reflexivity.
  - apply (setup_bad_credentials _ _ unit scripted_serve Some
             ["climate"%string] "username" "password"
             {| huum_username := None; huum_password := None |}
             (fun _ => a_session) (fun _ _ h => (HReturn tt, h))
             {| entry_id := "entry-3"; data := []; title := "Sauna" |}
             (scripted_hass [])).
    reflexivity.
Defined.

Lemma setup_stores_the_first_status_witness :
  exists d,
    fst (demo_setup an_entry
           (scripted_hass [Replied 200 response_idle;
                           Replied 200 response_stopped]))
    = HReturn true /\
    dict_lookup d "entry-1"
    = Some {| stored_handler := a_client;
              stored_status := response_stopped |}.
Proof.
  destruct (setup_stores_the_first_status _ _ unit scripted_serve Some
              ["climate"%string] "username" "password"
              {| huum_username := None; huum_password := None |}
              (fun _ => a_session) (fun _ _ h => (HReturn tt, h))
              an_entry
              (scripted_hass [Replied 200 response_idle;
                              Replied 200 response_stopped])
              "foo"%string "bar"%string response_stopped)
    as (d & E & L & _).
  - reflexivity.
  - reflexivity.
  - discriminate.
  - discriminate.
  - reflexivity.
  - reflexivity.
  - exists d. split; [rewrite E; reflexivity | exact L].
Defined.

Lemma setup_colon_in_username_witness :
  fst (demo_setup
         {| entry_id := "entry-4";
            data := [("username"%string, "a:b"%string);
                     ("password"%string, "c"%string)];
            title := "Sauna" |}
         (scripted_hass [Replied 200 response_heating]))
  = HRaise (Propagated (ValueError
      ("A " ++ double_quote ++ ":" ++ double_quote
         ++ " is not allowed in login (RFC 1945#section-11.1)")%string)).
Proof.
  apply (setup_colon_in_username _ _ unit scripted_serve Some
           ["climate"%string] "username" "password"
           {| huum_username := None; huum_password := None |}
           (fun _ => a_session) (fun _ _ h => (HReturn tt, h))
           {| entry_id := "entry-4";
              data := [("username"%string, "a:b"%string);
                       ("password"%string, "c"%string)];
              title := "Sauna" |}
           (scripted_hass [Replied 200 response_heating])
           "a:b"%string "c"%string).
  - reflexivity.
  - reflexivity.
  - discriminate.
  - discriminate.
  - reflexivity.
Defined.

Lemma unload_removes_the_entry_witness :
  let stored := {| stored_handler := a_client;
                   stored_status := response_stopped |} in
  let h := {| domain_data := Some [("entry-1"%string, stored);
                                   ("entry-2"%string, stored)];
              runtime := scripted_state a_client [];
              host := tt |} in
  exists d',
    demo_unload an_entry h
    = (HReturn true,
       {| domain_data := Some d'; runtime := runtime h; host := host h |}) /\
    dict_lookup d' "entry-1" = None /\
    dict_lookup d' "entry-2" = Some stored.
Proof.
  intros stored h.
  destruct (unload_removes_the_entry _ _ unit "huum" ["climate"%string]
              demo_unload_platforms an_entry h h true eq_refl)
    as (_ & Hok & _).
  destruct (Hok [("entry-1"%string, stored); ("entry-2"%string, stored)]
              stored eq_refl eq_refl eq_refl) as (d' & E & Hgone & Hkept).
  exists d'. split; [exact E|]. split; [exact Hgone|].
  rewrite Hkept; [reflexivity | discriminate].
Defined.

End integration.
